(** * nova/virt/firewall.py: the iptables security-group firewall driver

    A shallow embedding of [IptablesFirewallDriver]: the rule primitive
    builders, the per-instance rule compiler [instance_rules], the provider
    rule compiler [_provider_rules] and the stateful driver operations that
    push the compiled rules to the iptables manager. *)

From Stdlib Require Import ZArith List Bool Ascii String DecimalString.
From Stdlib Require Import DecimalPos DecimalZ.
From stdpp Require Import base option list strings gmap.

Local Open Scope string_scope.
Local Open Scope list_scope.
Local Open Scope Z_scope.

(** ** Python values used by the driver *)

Module Py.

(** A value that is either [None] or a [str]. *)
Definition pystr := option string.

Definition string_nonempty (s : string) : bool :=
  match s with EmptyString => false | String _ _ => true end.

(** Truth value of a [None]-or-[str] value: [None] and [''] are false. *)
Definition truthy (v : pystr) : bool :=
  match v with
  | None => false
  | Some s => string_nonempty s
  end.

(** ['%s' % v] for a [None]-or-[str] value. *)
Definition fmt_s (v : pystr) : string :=
  match v with
  | None => "None"
  | Some s => s
  end.

(** ['%s' % n] for an [int]. *)
Definition fmt_int (n : Z) : string := NilZero.string_of_int (Z.to_int n).

Definition lower_ascii (c : ascii) : ascii :=
  let n := N_of_ascii c in
  if ((65 <=? n) && (n <=? 90))%N then ascii_of_N (n + 32) else c.

(** [str.lower()] *)
Fixpoint lower (s : string) : string :=
  match s with
  | EmptyString => EmptyString
  | String c s' => String (lower_ascii c) (lower s')
  end.

(** [sep.join(l)] *)
Fixpoint join (sep : string) (l : list string) : string :=
  match l with
  | [] => ""
  | [x] => x
  | x :: l' => x +:+ sep +:+ join sep l'
  end.

(** [v == s] for a [None]-or-[str] value [v] and a [str] [s] *)
Definition eq_str (v : pystr) (s : string) : bool :=
  match v with
  | None => false
  | Some x => String.eqb x s
  end.

(** [v in l] for a list of strings [l] *)
Definition pystr_in (v : pystr) (l : list string) : bool :=
  existsb (eq_str v) l.

End Py.
Import Py.

(** ** Data model *)

(** The [network] half of a legacy network_info pair. *)
Record network := {
  cidr : pystr;
  cidr_v6 : pystr
}.

(** The [mapping] half of a legacy network_info pair; [ips] and [ip6s] hold
    the ['ip'] entry of each address dictionary. *)
Record mapping := {
  ips : list string;
  ip6s : list string;
  dhcp_server : pystr;
  gateway_v6 : pystr
}.

Definition legacy_network_info := list (network * mapping).

(** A network_info is either already legacy or a model object that has a
    [legacy()] method. *)
Inductive network_info :=
| LegacyInfo (l : legacy_network_info)
| ModelInfo (legacy : legacy_network_info).

Record instance := { instance_id : Z }.

(** One entry of [nw_info.fixed_ips()]. *)
Record fixed_ip := {
  address : string;
  version_of : Z
}.

Record grantee_group_t := { instances_of_group : list instance }.

(** A security group rule, with the keys the driver reads. *)
Record sg_rule := {
  rule_cidr : pystr;
  rule_protocol : pystr;
  from_port : Z;
  to_port : Z;
  grantee_group : option grantee_group_t
}.

(** A provider firewall rule. *)
Record provider_rule := {
  prule_cidr : string;
  prule_protocol : string;
  prule_from_port : Z;
  prule_to_port : Z
}.

Record security_group := { security_group_id : Z }.

(** [CONF]: the two options the driver reads. *)
Record conf := {
  use_ipv6 : bool;
  allow_same_net_traffic : bool
}.

(** The collaborators the compiler queries: the virt API, the network API
    and [netutils.get_ip_version]. *)
Record collaborators := {
  security_group_get_by_instance : instance -> list security_group;
  security_group_rule_get_by_security_group : security_group -> list sg_rule;
  provider_fw_rule_get_all : list provider_rule;
  get_instance_nw_info : instance -> list fixed_ip;
  get_ip_version : string -> Z
}.

(** ** Rule primitive builders *)

Definition _handle_network_info_model (ni : network_info) : legacy_network_info :=
  match ni with
  | LegacyInfo l => l
  | ModelInfo l => l
  end.

(** The [version] argument is taken and ignored, as in the source. *)
Definition _build_tcp_udp_rule (rule : sg_rule) (version : Z) : list string :=
  if from_port rule =? to_port rule
  then ["--dport"; fmt_int (from_port rule)]
  else ["-m"; "multiport"; "--dports";
        fmt_int (from_port rule) +:+ ":" +:+ fmt_int (to_port rule)].

(** The value of [icmp_type_arg] after the first conditional. *)
Definition icmp_type_arg (icmp_type icmp_code : Z) : pystr :=
  if icmp_type =? -1 then None
  else Some (if negb (icmp_code =? -1)
             then fmt_int icmp_type +:+ "/" +:+ fmt_int icmp_code
             else fmt_int icmp_type).

Definition _build_icmp_rule (rule : sg_rule) (version : Z) : list string :=
  let icmp_type := from_port rule in
  let icmp_code := to_port rule in
  let arg := icmp_type_arg icmp_type icmp_code in
  if truthy arg then
    if version =? 4 then ["-m"; "icmp"; "--icmp-type"; fmt_s arg]
    else if version =? 6 then ["-m"; "icmp6"; "--icmpv6-type"; fmt_s arg]
    else []
  else [].

(** ** The per-instance rule compiler

    [ipv4_rules] and [ipv6_rules] are Python lists extended in place; each
    helper takes the current lists and returns them extended. *)

Definition rule_lists := (list string * list string)%type.

Definition _do_basic_rules (ipv4_rules ipv6_rules : list string)
    (ni : network_info) : rule_lists :=
  (* Always drop invalid packets *)
  let ipv4_rules := ipv4_rules ++ ["-m state --state INVALID -j DROP"] in
  let ipv6_rules := ipv6_rules ++ ["-m state --state INVALID -j DROP"] in
  (* Allow established connections *)
  let ipv4_rules := ipv4_rules ++ ["-m state --state ESTABLISHED,RELATED -j ACCEPT"] in
  let ipv6_rules := ipv6_rules ++ ["-m state --state ESTABLISHED,RELATED -j ACCEPT"] in
  (* Pass through provider-wide drops *)
  let ipv4_rules := ipv4_rules ++ ["-j $provider"] in
  let ipv6_rules := ipv6_rules ++ ["-j $provider"] in
  (ipv4_rules, ipv6_rules).

Definition dhcp_rule (dhcp_server : pystr) : string :=
  "-s " +:+ fmt_s dhcp_server +:+ " -p udp --sport 67 --dport 68 -j ACCEPT".

Definition _do_dhcp_rules (ipv4_rules : list string) (ni : network_info)
    : list string :=
  let network_info := _handle_network_info_model ni in
  let dhcp_servers := map (fun '(_n, info) => dhcp_server info) network_info in
  fold_left (fun ipv4_rules dhcp_server =>
               if truthy dhcp_server
               then ipv4_rules ++ [dhcp_rule dhcp_server]
               else ipv4_rules)
            dhcp_servers ipv4_rules.

Definition accept_from (source : pystr) : string :=
  "-s " +:+ fmt_s source +:+ " -j ACCEPT".

Definition _do_project_network_rules (cf : conf)
    (ipv4_rules ipv6_rules : list string) (ni : network_info) : rule_lists :=
  let network_info := _handle_network_info_model ni in
  let cidrs := map (fun '(network, _i) => cidr network) network_info in
  let ipv4_rules :=
    fold_left (fun ipv4_rules cidr => ipv4_rules ++ [accept_from cidr])
              cidrs ipv4_rules in
  if use_ipv6 cf then
    let cidrv6s := map (fun '(network, _i) => cidr_v6 network) network_info in
    let ipv6_rules :=
      fold_left (fun ipv6_rules cidrv6 => ipv6_rules ++ [accept_from cidrv6])
                cidrv6s ipv6_rules in
    (ipv4_rules, ipv6_rules)
  else (ipv4_rules, ipv6_rules).

Definition ra_rule (gateway : pystr) : string :=
  "-s " +:+ fmt_s gateway +:+ "/128 -p icmpv6 -j ACCEPT".

Definition _do_ra_rules (ipv6_rules : list string) (ni : network_info)
    : list string :=
  let network_info := _handle_network_info_model ni in
  let gateways_v6 := map (fun '(_n, mapping) => gateway_v6 mapping) network_info in
  fold_left (fun ipv6_rules gateway_v6 => ipv6_rules ++ [ra_rule gateway_v6])
            gateways_v6 ipv6_rules.

(** The pieces of the loop body of [instance_rules], in source order. *)

(** [version]: 4 when the rule has no CIDR, else the CIDR's version. *)
Definition rule_version (co : collaborators) (rule : sg_rule) : Z :=
  if negb (truthy (rule_cidr rule)) then 4
  else get_ip_version co (fmt_s (rule_cidr rule)).

(** [protocol] after lower-casing and the [icmp] to [icmpv6] rewrite. *)
Definition rule_protocol_name (co : collaborators) (rule : sg_rule) : pystr :=
  let version := rule_version co rule in
  let protocol := rule_protocol rule in
  let protocol :=
    if truthy protocol then Some (lower (fmt_s protocol)) else protocol in
  if (version =? 6) && eq_str protocol "icmp" then Some "icmpv6" else protocol.

(** [args] when the source test is reached. *)
Definition rule_args (co : collaborators) (rule : sg_rule) : list string :=
  let version := rule_version co rule in
  let protocol := rule_protocol_name co rule in
  let args := ["-j ACCEPT"] in
  let args := if truthy protocol then args ++ ["-p"; fmt_s protocol] else args in
  if pystr_in protocol ["udp"; "tcp"]
  then args ++ _build_tcp_udp_rule rule version
  else if eq_str protocol "icmp"
       then args ++ _build_icmp_rule rule version
       else args.

(** The addresses a grantee instance contributes: its fixed IPs of the
    rule's version. *)
Definition member_ips (co : collaborators) (version : Z) (inst : instance)
    : list string :=
  let nw_info := get_instance_nw_info co inst in
  map address (List.filter (fun ip => version_of ip =? version) nw_info).

(** What the loop body appends to [fw_rules] for one rule. *)
Definition rule_fragments (co : collaborators) (rule : sg_rule) : list string :=
  let version := rule_version co rule in
  let args := rule_args co rule in
  if truthy (rule_cidr rule) then
    let args := args ++ ["-s"; fmt_s (rule_cidr rule)] in
    [join " " args]
  else
    match grantee_group rule with
    | Some group =>
        fold_left (fun fw_rules inst =>
                     fold_left (fun fw_rules ip =>
                                  let subrule := args ++ ["-s " +:+ ip] in
                                  fw_rules ++ [join " " subrule])
                               (member_ips co version inst) fw_rules)
                  (instances_of_group group) []
    | None => []
    end.

(** One iteration of the inner loop: [fw_rules] aliases the list of the
    rule's version, which is extended in place. *)
Definition add_sg_rule (co : collaborators) (lists : rule_lists)
    (rule : sg_rule) : rule_lists :=
  let '(ipv4_rules, ipv6_rules) := lists in
  if rule_version co rule =? 4
  then (ipv4_rules ++ rule_fragments co rule, ipv6_rules)
  else (ipv4_rules, ipv6_rules ++ rule_fragments co rule).

Definition instance_rules (cf : conf) (co : collaborators)
    (inst : instance) (ni : network_info) : rule_lists :=
  let network_info := LegacyInfo (_handle_network_info_model ni) in
  let ipv4_rules := [] in
  let ipv6_rules := [] in
  (* Initialize with basic rules *)
  let '(ipv4_rules, ipv6_rules) :=
    _do_basic_rules ipv4_rules ipv6_rules network_info in
  (* Set up rules to allow traffic to/from DHCP server *)
  let ipv4_rules := _do_dhcp_rules ipv4_rules network_info in
  (* Allow project network traffic *)
  let '(ipv4_rules, ipv6_rules) :=
    if allow_same_net_traffic cf
    then _do_project_network_rules cf ipv4_rules ipv6_rules network_info
    else (ipv4_rules, ipv6_rules) in
  (* Allow RA responses *)
  let ipv6_rules :=
    if use_ipv6 cf then _do_ra_rules ipv6_rules network_info else ipv6_rules in
  let security_groups := security_group_get_by_instance co inst in
  (* then, security group chains and rules *)
  let '(ipv4_rules, ipv6_rules) :=
    fold_left (fun lists security_group =>
                 let rules :=
                   security_group_rule_get_by_security_group co security_group in
                 fold_left (add_sg_rule co) rules lists)
              security_groups (ipv4_rules, ipv6_rules) in
  let ipv4_rules := ipv4_rules ++ ["-j $sg-fallback"] in
  let ipv6_rules := ipv6_rules ++ ["-j $sg-fallback"] in
  (ipv4_rules, ipv6_rules).

(** ** The provider rule compiler *)

Definition provider_rule_version (co : collaborators) (rule : provider_rule) : Z :=
  get_ip_version co (prule_cidr rule).

(** [args] at the end of the loop body of [_provider_rules]. *)
Definition provider_rule_args (co : collaborators) (rule : provider_rule)
    : list string :=
  let version := provider_rule_version co rule in
  let protocol := prule_protocol rule in
  let protocol :=
    if (version =? 6) && String.eqb protocol "icmp" then "icmpv6" else protocol in
  let args := ["-p"; protocol; "-s"; prule_cidr rule] in
  let args :=
    if pystr_in (Some protocol) ["udp"; "tcp"] then
      if prule_from_port rule =? prule_to_port rule
      then args ++ ["--dport"; fmt_int (prule_from_port rule)]
      else args ++ ["-m"; "multiport"; "--dports";
                    fmt_int (prule_from_port rule) +:+ ":"
                      +:+ fmt_int (prule_to_port rule)]
    else if String.eqb protocol "icmp" then
      let icmp_type := prule_from_port rule in
      let icmp_code := prule_to_port rule in
      let arg := icmp_type_arg icmp_type icmp_code in
      if truthy arg then
        if version =? 4 then args ++ ["-m"; "icmp"; "--icmp-type"; fmt_s arg]
        else if version =? 6
             then args ++ ["-m"; "icmp6"; "--icmpv6-type"; fmt_s arg]
             else args
      else args
    else args in
  args ++ ["-j DROP"].

(** The fragment one provider rule compiles to: [' '.join(args)]. *)
Definition provider_rule_fragment (co : collaborators) (rule : provider_rule)
    : string :=
  join " " (provider_rule_args co rule).

Definition add_provider_rule (co : collaborators) (lists : rule_lists)
    (rule : provider_rule) : rule_lists :=
  let '(ipv4_rules, ipv6_rules) := lists in
  if provider_rule_version co rule =? 4
  then (ipv4_rules ++ [provider_rule_fragment co rule], ipv6_rules)
  else (ipv4_rules, ipv6_rules ++ [provider_rule_fragment co rule]).

Definition _provider_rules (co : collaborators) : rule_lists :=
  let rules := provider_fw_rule_get_all co in
  fold_left (add_provider_rule co) rules ([], []).

(** ** The stateful driver

    The driver owns two dictionaries keyed by instance id and talks to the
    iptables manager, a process-wide object. The manager is outside this
    file: the model records the calls the driver issues to it, in order,
    together with lock scopes and info-level log lines (debug logging is
    left out). *)

Inductive table := Ipv4Filter | Ipv6Filter.

Inductive event :=
| AddChain (t : table) (chain : string)
| RemoveChain (t : table) (chain : string)
| EmptyChain (t : table) (chain : string)
| AddRule (t : table) (chain : string) (rule : string)
| DeferApplyOn
| DeferApplyOff
| Apply
| LockAcquire (name : string)
| LockRelease (name : string)
| LogInfo (msg : string).

Record driver := {
  instances : gmap Z instance;
  network_infos : gmap Z network_info;
  basically_filtered : bool
}.

Inductive exn := KeyError (key : Z).

Inductive outcome (A : Type) :=
| Returned (a : A)
| Raised (e : exn).
Arguments Returned {A} a.
Arguments Raised {A} e.

(** A driver method: it reads and updates the driver, emits events and
    either returns or raises. *)
Definition M (A : Type) : Type := driver -> outcome A * driver * list event.

#[global] Instance M_ret : MRet M := fun A a d => (Returned a, d, []).

#[global] Instance M_bind : MBind M := fun A B f m d =>
  match m d with
  | (Returned a, d', t) => let '(r, d'', t') := f a d' in (r, d'', t ++ t')
  | (Raised e, d', t) => (Raised e, d', t)
  end.

Definition emit (e : event) : M unit := fun d => (Returned tt, d, [e]).

Definition when (b : bool) (m : M unit) : M unit := if b then m else mret tt.

Fixpoint for_each {A} (l : list A) (body : A -> M unit) : M unit :=
  match l with
  | [] => mret tt
  | x :: l' => body x ;; for_each l' body
  end.

(** [@lockutils.synchronized(name, 'nova-', external=True)]: the lock is
    taken before the body and released when it returns or raises. *)
Definition synchronized {A} (name : string) (body : M A) : M A := fun d =>
  let '(r, d', t) := body d in
  (r, d', [LockAcquire name] ++ t ++ [LockRelease name]).

(** [self.instances.pop(key, None)] *)
Definition instances_pop (key : Z) : M (option instance) := fun d =>
  (Returned (instances d !! key),
   {| instances := delete key (instances d);
      network_infos := network_infos d;
      basically_filtered := basically_filtered d |}, []).

(** [self.network_infos.pop(key)] *)
Definition network_infos_pop (key : Z) : M network_info := fun d =>
  match network_infos d !! key with
  | Some ni =>
      (Returned ni,
       {| instances := instances d;
          network_infos := delete key (network_infos d);
          basically_filtered := basically_filtered d |}, [])
  | None => (Raised (KeyError key), d, [])
  end.

(** [self.network_infos[key]] *)
Definition network_infos_get (key : Z) : M network_info := fun d =>
  match network_infos d !! key with
  | Some ni => (Returned ni, d, [])
  | None => (Raised (KeyError key), d, [])
  end.

(** [self.instances[key] = inst] *)
Definition instances_set (key : Z) (inst : instance) : M unit := fun d =>
  (Returned tt,
   {| instances := <[key := inst]> (instances d);
      network_infos := network_infos d;
      basically_filtered := basically_filtered d |}, []).

(** [self.network_infos[key] = ni] *)
Definition network_infos_set (key : Z) (ni : network_info) : M unit := fun d =>
  (Returned tt,
   {| instances := instances d;
      network_infos := <[key := ni]> (network_infos d);
      basically_filtered := basically_filtered d |}, []).

Definition _instance_chain_name (inst : instance) : string :=
  "inst-" +:+ fmt_int (instance_id inst).

Definition _create_filter (ips : list string) (chain_name : string)
    : list string :=
  map (fun ip => "-d " +:+ ip +:+ " -j $" +:+ chain_name) ips.

Definition _filters_for_instance (cf : conf) (chain_name : string)
    (ni : network_info) : rule_lists :=
  let network_info := _handle_network_info_model ni in
  let ips_v4 := flat_map (fun '(_n, mapping) => ips mapping) network_info in
  let ipv4_rules := _create_filter ips_v4 chain_name in
  let ipv6_rules :=
    if use_ipv6 cf then
      let ips_v6 := flat_map (fun '(_n, mapping) => ip6s mapping) network_info in
      _create_filter ips_v6 chain_name
    else [] in
  (ipv4_rules, ipv6_rules).

Section Driver.

Variable cf : conf.
Variable co : collaborators.

(** [__init__]: empty dictionaries, and the fallback chain in both tables. *)
Definition init : M unit := fun _ =>
  (Returned tt,
   {| instances := ∅; network_infos := ∅; basically_filtered := false |},
   [AddChain Ipv4Filter "sg-fallback";
    AddRule Ipv4Filter "sg-fallback" "-j DROP";
    AddChain Ipv6Filter "sg-fallback";
    AddRule Ipv6Filter "sg-fallback" "-j DROP"]).

Definition filter_defer_apply_on : M unit := emit DeferApplyOn.

Definition filter_defer_apply_off : M unit := emit DeferApplyOff.

Definition _add_filters (chain_name : string)
    (ipv4_rules ipv6_rules : list string) : M unit :=
  for_each ipv4_rules (fun rule => emit (AddRule Ipv4Filter chain_name rule)) ;;
  when (use_ipv6 cf)
    (for_each ipv6_rules (fun rule => emit (AddRule Ipv6Filter chain_name rule))).

Definition add_filters_for_instance (inst : instance)
    (inst_ipv4_rules inst_ipv6_rules : list string) : M unit :=
  network_info ← network_infos_get (instance_id inst) ;
  let chain_name := _instance_chain_name inst in
  when (use_ipv6 cf) (emit (AddChain Ipv6Filter chain_name)) ;;
  emit (AddChain Ipv4Filter chain_name) ;;
  let '(ipv4_rules, ipv6_rules) :=
    _filters_for_instance cf chain_name network_info in
  _add_filters "local" ipv4_rules ipv6_rules ;;
  _add_filters chain_name inst_ipv4_rules inst_ipv6_rules.

Definition remove_filters_for_instance (inst : instance) : M unit :=
  let chain_name := _instance_chain_name inst in
  emit (RemoveChain Ipv4Filter chain_name) ;;
  when (use_ipv6 cf) (emit (RemoveChain Ipv6Filter chain_name)).

(** Remove all rules from the provider chains. *)
Definition _purge_provider_fw_rules : M unit :=
  emit (EmptyChain Ipv4Filter "provider") ;;
  when (use_ipv6 cf) (emit (EmptyChain Ipv6Filter "provider")).

(** Create all rules for the provider IP DROPs. *)
Definition _build_provider_fw_rules : M unit :=
  emit (AddChain Ipv4Filter "provider") ;;
  when (use_ipv6 cf) (emit (AddChain Ipv6Filter "provider")) ;;
  let '(ipv4_rules, ipv6_rules) := _provider_rules co in
  for_each ipv4_rules (fun rule => emit (AddRule Ipv4Filter "provider" rule)) ;;
  when (use_ipv6 cf)
    (for_each ipv6_rules (fun rule => emit (AddRule Ipv6Filter "provider" rule))).

Definition _do_refresh_provider_fw_rules : M unit :=
  synchronized "iptables"
    (_purge_provider_fw_rules ;;
     _build_provider_fw_rules).

Definition refresh_provider_fw_rules : M unit :=
  _do_refresh_provider_fw_rules ;;
  emit Apply.

(** The popped value is an instance, which is a true value; [None] is
    what [pop] gives for an id that is not tracked. *)
Definition unfilter_instance (inst : instance) (ni : network_info) : M unit :=
  let network_info := _handle_network_info_model ni in
  popped ← instances_pop (instance_id inst) ;
  match popped with
  | Some _ =>
      network_infos_pop (instance_id inst) ;;
      remove_filters_for_instance inst ;;
      emit Apply
  | None =>
      emit (LogInfo "Attempted to unfilter instance which is not filtered")
  end.

Definition prepare_instance_filter (inst : instance) (ni : network_info)
    : M unit :=
  let network_info := LegacyInfo (_handle_network_info_model ni) in
  instances_set (instance_id inst) inst ;;
  network_infos_set (instance_id inst) network_info ;;
  let '(ipv4_rules, ipv6_rules) := instance_rules cf co inst network_info in
  add_filters_for_instance inst ipv4_rules ipv6_rules ;;
  refresh_provider_fw_rules ;;
  emit Apply.

Definition _inner_do_refresh_rules (inst : instance)
    (ipv4_rules ipv6_rules : list string) : M unit :=
  synchronized "iptables"
    (remove_filters_for_instance inst ;;
     add_filters_for_instance inst ipv4_rules ipv6_rules).

Definition do_refresh_instance_rules (inst : instance) : M unit :=
  network_info ← network_infos_get (instance_id inst) ;
  let '(ipv4_rules, ipv6_rules) := instance_rules cf co inst network_info in
  _inner_do_refresh_rules inst ipv4_rules ipv6_rules.

Definition refresh_instance_security_rules (inst : instance) : M unit :=
  do_refresh_instance_rules inst ;;
  emit Apply.

End Driver.

(** ** Provenance of compiled entries

    The compiler again, with every appended entry paired with the step of
    [instance_rules] that appends it. [erase_instance_rules] below shows
    that dropping the labels gives [instance_rules] back. *)

Module Provenance.

Inductive origin :=
| Prelude                     (* [_do_basic_rules] *)
| Dhcp                        (* [_do_dhcp_rules] *)
| SameNetwork                 (* [_do_project_network_rules] *)
| RouterAdvertisement         (* [_do_ra_rules] *)
| GroupRule (rule : sg_rule)  (* the security group loop, at [rule] *)
| Fallback.                   (* the final jump to [sg-fallback] *)

Definition entry := (origin * string)%type.
Definition entry_lists := (list entry * list entry)%type.

Definition text (e : entry) : string := snd e.
Definition source (e : entry) : origin := fst e.

Definition erase (lists : entry_lists) : rule_lists :=
  (map text (fst lists), map text (snd lists)).

Definition _do_basic_rules (ipv4_rules ipv6_rules : list entry)
    (ni : network_info) : entry_lists :=
  let ipv4_rules := ipv4_rules ++ [(Prelude, "-m state --state INVALID -j DROP")] in
  let ipv6_rules := ipv6_rules ++ [(Prelude, "-m state --state INVALID -j DROP")] in
  let ipv4_rules :=
    ipv4_rules ++ [(Prelude, "-m state --state ESTABLISHED,RELATED -j ACCEPT")] in
  let ipv6_rules :=
    ipv6_rules ++ [(Prelude, "-m state --state ESTABLISHED,RELATED -j ACCEPT")] in
  let ipv4_rules := ipv4_rules ++ [(Prelude, "-j $provider")] in
  let ipv6_rules := ipv6_rules ++ [(Prelude, "-j $provider")] in
  (ipv4_rules, ipv6_rules).

Definition _do_dhcp_rules (ipv4_rules : list entry) (ni : network_info)
    : list entry :=
  let network_info := _handle_network_info_model ni in
  let dhcp_servers := map (fun '(_n, info) => dhcp_server info) network_info in
  fold_left (fun ipv4_rules dhcp_server =>
               if truthy dhcp_server
               then ipv4_rules ++ [(Dhcp, dhcp_rule dhcp_server)]
               else ipv4_rules)
            dhcp_servers ipv4_rules.

Definition _do_project_network_rules (cf : conf)
    (ipv4_rules ipv6_rules : list entry) (ni : network_info) : entry_lists :=
  let network_info := _handle_network_info_model ni in
  let cidrs := map (fun '(network, _i) => cidr network) network_info in
  let ipv4_rules :=
    fold_left (fun ipv4_rules cidr =>
                 ipv4_rules ++ [(SameNetwork, accept_from cidr)])
              cidrs ipv4_rules in
  if use_ipv6 cf then
    let cidrv6s := map (fun '(network, _i) => cidr_v6 network) network_info in
    let ipv6_rules :=
      fold_left (fun ipv6_rules cidrv6 =>
                   ipv6_rules ++ [(SameNetwork, accept_from cidrv6)])
                cidrv6s ipv6_rules in
    (ipv4_rules, ipv6_rules)
  else (ipv4_rules, ipv6_rules).

Definition _do_ra_rules (ipv6_rules : list entry) (ni : network_info)
    : list entry :=
  let network_info := _handle_network_info_model ni in
  let gateways_v6 :=
    map (fun '(_n, mapping) => gateway_v6 mapping) network_info in
  fold_left (fun ipv6_rules gateway_v6 =>
               ipv6_rules ++ [(RouterAdvertisement, ra_rule gateway_v6)])
            gateways_v6 ipv6_rules.

Definition add_sg_rule (co : collaborators) (lists : entry_lists)
    (rule : sg_rule) : entry_lists :=
  let '(ipv4_rules, ipv6_rules) := lists in
  let new := map (pair (GroupRule rule)) (rule_fragments co rule) in
  if rule_version co rule =? 4
  then (ipv4_rules ++ new, ipv6_rules)
  else (ipv4_rules, ipv6_rules ++ new).

Definition instance_rules (cf : conf) (co : collaborators)
    (inst : instance) (ni : network_info) : entry_lists :=
  let network_info := LegacyInfo (_handle_network_info_model ni) in
  let ipv4_rules := [] in
  let ipv6_rules := [] in
  let '(ipv4_rules, ipv6_rules) :=
    _do_basic_rules ipv4_rules ipv6_rules network_info in
  let ipv4_rules := _do_dhcp_rules ipv4_rules network_info in
  let '(ipv4_rules, ipv6_rules) :=
    if allow_same_net_traffic cf
    then _do_project_network_rules cf ipv4_rules ipv6_rules network_info
    else (ipv4_rules, ipv6_rules) in
  let ipv6_rules :=
    if use_ipv6 cf then _do_ra_rules ipv6_rules network_info else ipv6_rules in
  let security_groups := security_group_get_by_instance co inst in
  let '(ipv4_rules, ipv6_rules) :=
    fold_left (fun lists security_group =>
                 let rules :=
                   security_group_rule_get_by_security_group co security_group in
                 fold_left (add_sg_rule co) rules lists)
              security_groups (ipv4_rules, ipv6_rules) in
  let ipv4_rules := ipv4_rules ++ [(Fallback, "-j $sg-fallback")] in
  let ipv6_rules := ipv6_rules ++ [(Fallback, "-j $sg-fallback")] in
  (ipv4_rules, ipv6_rules).

(** An entry that comes from the topology or from a security group. *)
Definition policy_derived (e : entry) : Prop :=
  match source e with
  | Prelude | Fallback => False
  | _ => True
  end.

End Provenance.

(** ** Concrete collaborators for examples *)

Fixpoint has_colon (s : string) : bool :=
  match s with
  | EmptyString => false
  | String c s' => Ascii.eqb c ":" || has_colon s'
  end.

(** Modelled from the spec: [netutils.get_ip_version] is not part of this
    file; the spec only says the IP version is implied by the source CIDR.
    A textual IPv6 block contains a colon and an IPv4 block does not. The
    compiler takes the function from its collaborators; this one serves the
    concrete policies below. *)
Definition ip_version_of_text (cidr : string) : Z :=
  if has_colon cidr then 6 else 4.

(** ** Notions used in the statements *)

(** The three entries [_do_basic_rules] puts in front of both lists. *)
Definition prelude : list string :=
  ["-m state --state INVALID -j DROP";
   "-m state --state ESTABLISHED,RELATED -j ACCEPT";
   "-j $provider"].

Definition fallback_jump : string := "-j $sg-fallback".

(** The rules the nested loop of [instance_rules] visits, in the order it
    visits them: group by group, rule by rule. *)
Definition rules_of_instance (co : collaborators) (inst : instance)
    : list sg_rule :=
  flat_map (security_group_rule_get_by_security_group co)
           (security_group_get_by_instance co inst).

Definition targets_ipv4 (co : collaborators) (rule : sg_rule) : bool :=
  rule_version co rule =? 4.

Definition targets_ipv6_list (co : collaborators) (rule : sg_rule) : bool :=
  negb (targets_ipv4 co rule).

(** What each topology step contributes. *)
Definition dhcp_entries (ni : network_info) : list string :=
  map dhcp_rule
      (List.filter truthy
         (map (fun '(_n, info) => dhcp_server info)
              (_handle_network_info_model ni))).

Definition same_network_v4 (ni : network_info) : list string :=
  map accept_from
      (map (fun '(network, _i) => cidr network) (_handle_network_info_model ni)).

Definition same_network_v6 (ni : network_info) : list string :=
  map accept_from
      (map (fun '(network, _i) => cidr_v6 network)
           (_handle_network_info_model ni)).

Definition ra_entries (ni : network_info) : list string :=
  map ra_rule
      (map (fun '(_n, mapping) => gateway_v6 mapping)
           (_handle_network_info_model ni)).

(** The labelled fragments of one security group rule. *)
Definition labelled_fragments (co : collaborators) (rule : sg_rule)
    : list Provenance.entry :=
  map (pair (Provenance.GroupRule rule)) (rule_fragments co rule).

Definition ends_with (suffix s : string) : Prop :=
  exists body, s = body +:+ suffix.

Fixpoint last_ascii (s : string) : option ascii :=
  match s with
  | EmptyString => None
  | String c EmptyString => Some c
  | String _ s' => last_ascii s'
  end.

(** A list that holds nothing derived from the topology or from a security
    group: no DHCP, same-network, router-advertisement or group entry. *)
Definition free_of_policy_entries (l : list Provenance.entry) : Prop :=
  Forall (fun e => ~ Provenance.policy_derived e) l.

(** Policy data the specification calls invalid. *)
Definition invalid_rule (rule : sg_rule) : Prop :=
  from_port rule > to_port rule
  \/ (truthy (rule_cidr rule) = false /\ grantee_group rule = None
      /\ truthy (rule_protocol rule) = false).

(** Calls that change the rule table or commit it. *)
Definition mutates_sink (e : event) : bool :=
  match e with
  | AddChain _ _ | RemoveChain _ _ | EmptyChain _ _ | AddRule _ _ _ | Apply =>
      true
  | _ => false
  end.

(** A refresh that raises and leaves the rule table alone. *)
Definition refresh_aborts (cf : conf) (co : collaborators) (inst : instance)
    (d : driver) : Prop :=
  let '(result, _, trace) := do_refresh_instance_rules cf co inst d in
  (exists e, result = Raised e)
  /\ forallb (fun e => negb (mutates_sink e)) trace = true.

Definition provider_targets_ipv4 (co : collaborators) (rule : provider_rule)
    : bool :=
  provider_rule_version co rule =? 4.

(** The calls one provider refresh issues, for given compiled lists. *)
Definition provider_refresh_trace (cf : conf) (lists : rule_lists)
    : list event :=
  [LockAcquire "iptables"; EmptyChain Ipv4Filter "provider"]
    ++ (if use_ipv6 cf then [EmptyChain Ipv6Filter "provider"] else [])
    ++ [AddChain Ipv4Filter "provider"]
    ++ (if use_ipv6 cf then [AddChain Ipv6Filter "provider"] else [])
    ++ map (AddRule Ipv4Filter "provider") (fst lists)
    ++ (if use_ipv6 cf
        then map (AddRule Ipv6Filter "provider") (snd lists) else [])
    ++ [LockRelease "iptables"; Apply].

(** [m], started in [d], returns [a] in state [d'] after emitting [t]. *)
Definition runs {A} (m : M A) (d : driver) (a : A) (d' : driver)
    (t : list event) : Prop :=
  m d = (Returned a, d', t).

(** The calls [add_filters_for_instance] issues for an instance whose
    stored topology is [ni]. *)
Definition add_filters_trace (cf : conf) (inst : instance) (ni : network_info)
    (lists : rule_lists) : list event :=
  let chain_name := _instance_chain_name inst in
  let jumps := _filters_for_instance cf chain_name ni in
  (if use_ipv6 cf then [AddChain Ipv6Filter chain_name] else [])
    ++ [AddChain Ipv4Filter chain_name]
    ++ map (AddRule Ipv4Filter "local") (fst jumps)
    ++ (if use_ipv6 cf then map (AddRule Ipv6Filter "local") (snd jumps) else [])
    ++ map (AddRule Ipv4Filter chain_name) (fst lists)
    ++ (if use_ipv6 cf
        then map (AddRule Ipv6Filter chain_name) (snd lists) else []).

(** The calls one instance refresh issues. *)
Definition refresh_trace (cf : conf) (inst : instance) (ni : network_info)
    (lists : rule_lists) : list event :=
  [LockAcquire "iptables";
   RemoveChain Ipv4Filter (_instance_chain_name inst)]
    ++ (if use_ipv6 cf
        then [RemoveChain Ipv6Filter (_instance_chain_name inst)] else [])
    ++ add_filters_trace cf inst ni lists
    ++ [LockRelease "iptables"].

(** ** Concrete policies and topologies *)

Module Examples.

Definition inst1 : instance := {| instance_id := 1 |}.
Definition member_a : instance := {| instance_id := 7 |}.
Definition member_b : instance := {| instance_id := 8 |}.

(** One subnet with both address families configured. *)
Definition topology : network_info :=
  LegacyInfo
    [({| cidr := Some "10.0.0.0/24"; cidr_v6 := Some "fd00::/64" |},
      {| ips := ["10.0.0.5"]; ip6s := ["fd00::5"];
         dhcp_server := Some "10.0.0.1"; gateway_v6 := Some "fd00::1" |})].

(** [member_a] has an IPv4 and an IPv6 address, [member_b] an IPv4 one. *)
Definition nw_info_of (i : instance) : list fixed_ip :=
  if instance_id i =? 7
  then [{| address := "10.0.0.7"; version_of := 4 |};
        {| address := "fd00::7"; version_of := 6 |}]
  else if instance_id i =? 8
       then [{| address := "10.0.0.8"; version_of := 4 |}]
       else [].

(** A policy store with one group holding [rules]. *)
Definition policy (rules : list sg_rule) (prules : list provider_rule)
    : collaborators :=
  {| security_group_get_by_instance := fun _ => [{| security_group_id := 1 |}];
     security_group_rule_get_by_security_group := fun _ => rules;
     provider_fw_rule_get_all := prules;
     get_instance_nw_info := nw_info_of;
     get_ip_version := ip_version_of_text |}.

Definition ipv6_off : conf :=
  {| use_ipv6 := false; allow_same_net_traffic := true |}.

Definition ipv6_on : conf :=
  {| use_ipv6 := true; allow_same_net_traffic := true |}.

Definition tcp80_from_v6 : sg_rule :=
  {| rule_cidr := Some "fe80::/64"; rule_protocol := Some "tcp";
     from_port := 80; to_port := 80; grantee_group := None |}.

Definition echo_from_v6 : sg_rule :=
  {| rule_cidr := Some "fe80::/64"; rule_protocol := Some "icmp";
     from_port := 8; to_port := -1; grantee_group := None |}.

Definition echo_from_v4 : sg_rule :=
  {| rule_cidr := Some "192.0.2.0/24"; rule_protocol := Some "icmp";
     from_port := 8; to_port := 0; grantee_group := None |}.

Definition any_icmp_from_v4 : sg_rule :=
  {| rule_cidr := Some "192.0.2.0/24"; rule_protocol := Some "icmp";
     from_port := -1; to_port := -1; grantee_group := None |}.

Definition echo_type_from_v4 : sg_rule :=
  {| rule_cidr := Some "192.0.2.0/24"; rule_protocol := Some "ICMP";
     from_port := 8; to_port := -1; grantee_group := None |}.

Definition reversed_range : sg_rule :=
  {| rule_cidr := Some "0.0.0.0/0"; rule_protocol := Some "udp";
     from_port := 100; to_port := 50; grantee_group := None |}.

Definition sourceless : sg_rule :=
  {| rule_cidr := None; rule_protocol := None;
     from_port := -1; to_port := -1; grantee_group := None |}.

Definition ssh_from_group : sg_rule :=
  {| rule_cidr := None; rule_protocol := Some "tcp";
     from_port := 22; to_port := 22;
     grantee_group :=
       Some {| instances_of_group := [member_a; member_b] |} |}.

Definition provider_echo_v6 : provider_rule :=
  {| prule_cidr := "2001:db8::/32"; prule_protocol := "icmp";
     prule_from_port := 8; prule_to_port := -1 |}.

Definition provider_echo_v4 : provider_rule :=
  {| prule_cidr := "198.51.100.0/24"; prule_protocol := "icmp";
     prule_from_port := 8; prule_to_port := 0 |}.

Definition provider_any_icmp_v4 : provider_rule :=
  {| prule_cidr := "198.51.100.0/24"; prule_protocol := "icmp";
     prule_from_port := -1; prule_to_port := -1 |}.

Definition provider_echo_type_v4 : provider_rule :=
  {| prule_cidr := "198.51.100.0/24"; prule_protocol := "icmp";
     prule_from_port := 8; prule_to_port := -1 |}.

Definition provider_tcp : provider_rule :=
  {| prule_cidr := "203.0.113.0/24"; prule_protocol := "tcp";
     prule_from_port := 1; prule_to_port := 1024 |}.

Definition fresh : driver :=
  {| instances := ∅; network_infos := ∅; basically_filtered := false |}.

(** The driver after [inst1] has been prepared. *)
Definition tracking_inst1 : driver :=
  {| instances := {[ 1 := inst1 ]};
     network_infos := {[ 1 := topology ]};
     basically_filtered := false |}.

End Examples.

(** ** The remaining driver methods *)

Definition _security_group_chain_name (security_group_id : Z) : string :=
  "nova-sg-" +:+ fmt_int security_group_id.

(** [setup_basic_filtering], [apply_instance_filter] and
    [instance_filter_exists] of the iptables driver are [pass]: they return
    [None] and touch nothing. *)
Definition setup_basic_filtering (inst : instance) (ni : network_info)
    : M unit :=
  mret tt.

Definition apply_instance_filter (inst : instance) (ni : network_info)
    : M unit :=
  mret tt.

Definition instance_filter_exists (inst : instance) (ni : network_info)
    : M (option bool) :=
  mret None.

(** [self.instances.values()]: the tracked instances, in the order the
    dictionary yields them. *)
Definition instances_values (d : driver) : list instance :=
  map snd (map_to_list (instances d)).

(** The body of the loop of [do_refresh_security_group_rules]. *)
Definition refresh_one (cf : conf) (co : collaborators) (inst : instance)
    : M unit :=
  network_info ← network_infos_get (instance_id inst) ;
  let '(ipv4_rules, ipv6_rules) := instance_rules cf co inst network_info in
  _inner_do_refresh_rules cf inst ipv4_rules ipv6_rules.

(** The [security_group] argument is taken and not read: every tracked
    instance is refreshed. *)
Definition do_refresh_security_group_rules (cf : conf) (co : collaborators)
    (security_group : security_group) : M unit := fun d =>
  for_each (instances_values d) (refresh_one cf co) d.


Definition refresh_security_group_rules (cf : conf) (co : collaborators)
    (security_group : security_group) : M unit :=
  do_refresh_security_group_rules cf co security_group ;;
  emit Apply.

(** ** Further notions used in the statements *)

(** Reading back what ['%s' % n] prints. *)
Definition parse_int (s : string) : option Z :=
  option_map Z.of_int (NilZero.int_of_string s).

(** The same rule with other ports, and with another protocol. *)
Definition with_ports (rule : sg_rule) (from to : Z) : sg_rule :=
  {| rule_cidr := rule_cidr rule;
     rule_protocol := rule_protocol rule;
     from_port := from;
     to_port := to;
     grantee_group := grantee_group rule |}.

Definition with_protocol (rule : sg_rule) (protocol : pystr) : sg_rule :=
  {| rule_cidr := rule_cidr rule;
     rule_protocol := protocol;
     from_port := from_port rule;
     to_port := to_port rule;
     grantee_group := grantee_group rule |}.

Definition provider_with_ports (rule : provider_rule) (from to : Z)
    : provider_rule :=
  {| prule_cidr := prule_cidr rule;
     prule_protocol := prule_protocol rule;
     prule_from_port := from;
     prule_to_port := to |}.

(** The two dictionaries agree: every tracked instance is stored under its
    own id, and an id has a topology exactly when it has an instance. *)
Definition tracked_consistent (d : driver) : Prop :=
  (forall k i, instances d !! k = Some i -> instance_id i = k)
  /\ (forall k, is_Some (instances d !! k) <-> is_Some (network_infos d !! k)).

(** Calls that change chains or rules of a table. *)
Definition chain_mutation (e : event) : bool :=
  match e with
  | AddChain _ _ | RemoveChain _ _ | EmptyChain _ _ | AddRule _ _ _ => true
  | _ => false
  end.

(** Whether every chain mutation of a trace happens while a lock is held;
    [held] tells whether one is held at the start. *)
Fixpoint mutations_locked (held : bool) (t : list event) : bool :=
  match t with
  | [] => true
  | LockAcquire _ :: t' => mutations_locked true t'
  | LockRelease _ :: t' => mutations_locked false t'
  | e :: t' => (negb (chain_mutation e) || held) && mutations_locked held t'
  end.

(** The calls the refresh of one tracked instance issues, from the stored
    topology; nothing for an id without one. *)
Definition refresh_one_trace (cf : conf) (co : collaborators) (d : driver)
    (inst : instance) : list event :=
  match network_infos d !! instance_id inst with
  | Some ni => refresh_trace cf inst ni (instance_rules cf co inst ni)
  | None => []
  end.

(** The driver with [inst] and its topology recorded, and with the id of
    [inst] dropped. *)
Definition track (inst : instance) (ni : network_info) (d : driver) : driver :=
  {| instances := <[instance_id inst := inst]> (instances d);
     network_infos :=
       <[instance_id inst := LegacyInfo (_handle_network_info_model ni)]>
         (network_infos d);
     basically_filtered := basically_filtered d |}.

Definition untrack (inst : instance) (d : driver) : driver :=
  {| instances := delete (instance_id inst) (instances d);
     network_infos := delete (instance_id inst) (network_infos d);
     basically_filtered := basically_filtered d |}.

(** Reading a chain name back: the id behind ['inst-%s']. *)
Fixpoint strip_prefix (prefix s : string) : option string :=
  match prefix with
  | EmptyString => Some s
  | String a prefix' =>
      match s with
      | EmptyString => None
      | String b s' => if Ascii.eqb a b then strip_prefix prefix' s' else None
      end
  end.

Definition chain_owner (chain_name : string) : option Z :=
  match strip_prefix "inst-" chain_name with
  | Some digits => parse_int digits
  | None => None
  end.

(** Calls addressed to the IPv6 filter table. *)
Definition on_ipv6_table (e : event) : bool :=
  match e with
  | AddChain Ipv6Filter _ | RemoveChain Ipv6Filter _
  | EmptyChain Ipv6Filter _ | AddRule Ipv6Filter _ _ => true
  | _ => false
  end.

(** ** More concrete policies *)

Module Scenarios.

(** A policy store with no group for any instance. *)
Definition no_groups : collaborators :=
  {| security_group_get_by_instance := fun _ => [];
     security_group_rule_get_by_security_group := fun _ => [];
     provider_fw_rule_get_all := [];
     get_instance_nw_info := Examples.nw_info_of;
     get_ip_version := ip_version_of_text |}.

Definition same_net_off : conf :=
  {| use_ipv6 := true; allow_same_net_traffic := false |}.

Definition esp_from_v4 : sg_rule :=
  {| rule_cidr := Some "192.0.2.0/24"; rule_protocol := Some "esp";
     from_port := 1; to_port := 2; grantee_group := None |}.

Definition upper_tcp_from_v4 : sg_rule :=
  {| rule_cidr := Some "192.0.2.0/24"; rule_protocol := Some "TCP";
     from_port := 443; to_port := 443; grantee_group := None |}.

Definition v6_only_member : instance := {| instance_id := 9 |}.

(** [v6_only_member] has an IPv6 address only. *)
Definition nw_info_v6_only (i : instance) : list fixed_ip :=
  if instance_id i =? 9
  then [{| address := "fd00::9"; version_of := 6 |}]
  else [].

Definition from_v6_only_group : sg_rule :=
  {| rule_cidr := None; rule_protocol := Some "tcp";
     from_port := 22; to_port := 22;
     grantee_group := Some {| instances_of_group := [v6_only_member] |} |}.

Definition v6_only_policy : collaborators :=
  {| security_group_get_by_instance := fun _ => [{| security_group_id := 1 |}];
     security_group_rule_get_by_security_group := fun _ => [from_v6_only_group];
     provider_fw_rule_get_all := [];
     get_instance_nw_info := nw_info_v6_only;
     get_ip_version := ip_version_of_text |}.

Definition provider_upper_tcp : provider_rule :=
  {| prule_cidr := "203.0.113.0/24"; prule_protocol := "TCP";
     prule_from_port := 22; prule_to_port := 22 |}.

Definition inst2 : instance := {| instance_id := 2 |}.

(** An instance recorded without a topology, which no driver method
    produces. *)
Definition instance_without_topology : driver :=
  {| instances := {[ 1 := Examples.inst1 ]};
     network_infos := ∅;
     basically_filtered := false |}.

End Scenarios.

(** * Verification *)

(** ** Loops that extend a list in place *)

Section Loops.

Context {A B : Type}.

Lemma fold_left_extend (f : B -> list A) (l : list B) (init : list A) :
  fold_left (fun acc x => acc ++ f x) l init = init ++ flat_map f l.
Proof.
  revert init. induction l as [|x l IH]; intros init; simpl.
  - now rewrite app_nil_r.
  - rewrite IH. now rewrite <- app_assoc.
Qed.

Lemma fold_left_append_one (f : B -> A) (l : list B) (init : list A) :
  fold_left (fun acc x => acc ++ [f x]) l init = init ++ map f l.
Proof.
  revert init. induction l as [|x l IH]; intros init; simpl.
  - now rewrite app_nil_r.
  - rewrite IH. now rewrite <- app_assoc.
Qed.

Lemma fold_left_append_if (p : B -> bool) (f : B -> A) (l : list B)
    (init : list A) :
  fold_left (fun acc x => if p x then acc ++ [f x] else acc) l init
  = init ++ map f (List.filter p l).
Proof.
  revert init. induction l as [|x l IH]; intros init; simpl.
  - now rewrite app_nil_r.
  - rewrite IH. destruct (p x); simpl; [now rewrite <- app_assoc | reflexivity].
Qed.

(** A loop that extends one of two lists, chosen per element. *)
Lemma fold_left_two_lists (side : B -> bool) (f : B -> list A) (l : list B)
    (l4 l6 : list A) :
  fold_left (fun (lists : list A * list A) x =>
               let '(a, b) := lists in
               if side x then (a ++ f x, b) else (a, b ++ f x))
            l (l4, l6)
  = (l4 ++ flat_map f (List.filter side l),
     l6 ++ flat_map f (List.filter (fun x => negb (side x)) l)).
Proof.
  revert l4 l6. induction l as [|x l IH]; intros l4 l6; simpl.
  - now rewrite !app_nil_r.
  - destruct (side x); simpl; rewrite IH; now rewrite <- app_assoc.
Qed.

Lemma fold_left_nested {C : Type} (g : C -> list B) (step : A -> B -> A)
    (l : list C) (init : A) :
  fold_left (fun acc c => fold_left step (g c) acc) l init
  = fold_left step (flat_map g l) init.
Proof.
  revert init. induction l as [|c l IH]; intros init; simpl.
  - reflexivity.
  - now rewrite fold_left_app, IH.
Qed.

End Loops.

(** ** Strings *)

Lemma append_cons (x : ascii) (a b : string) :
  String x a +:+ b = String x (a +:+ b).
Proof. reflexivity. Qed.

Lemma append_assoc (a b c : string) : (a +:+ b) +:+ c = a +:+ (b +:+ c).
Proof.
  induction a as [|x a IH]; [reflexivity|].
  now rewrite !append_cons, IH.
Qed.

Lemma join_snoc (sep : string) (l : list string) (x : string) :
  l <> [] -> join sep (l ++ [x]) = join sep l +:+ sep +:+ x.
Proof.
  induction l as [|y l IH]; intros Hne; [congruence|].
  destruct l as [|z l].
  - reflexivity.
  - change (join sep ((y :: z :: l) ++ [x]))
      with (y +:+ sep +:+ join sep ((z :: l) ++ [x])).
    rewrite IH by discriminate.
    change (join sep (y :: z :: l)) with (y +:+ sep +:+ join sep (z :: l)).
    now rewrite !append_assoc.
Qed.

Lemma last_ascii_append (a b : string) :
  string_nonempty b = true -> last_ascii (a +:+ b) = last_ascii b.
Proof.
  intros Hb. induction a as [|x a IH]; [reflexivity|].
  rewrite append_cons. simpl. rewrite IH.
  destruct (a +:+ b) eqn:E; [|reflexivity].
  destruct a, b; discriminate.
Qed.

Lemma fmt_int_nonempty (n : Z) : string_nonempty (fmt_int n) = true.
Proof.
  unfold fmt_int.
  assert (Hu : forall d, string_nonempty (NilZero.string_of_uint d) = true)
    by (intros d; destruct d; reflexivity).
  destruct (Z.to_int n) as [d|d]; simpl; [apply Hu | reflexivity].
Qed.

Lemma icmp_type_arg_truthy (icmp_type icmp_code : Z) :
  truthy (icmp_type_arg icmp_type icmp_code) = negb (icmp_type =? -1).
Proof.
  unfold icmp_type_arg. destruct (icmp_type =? -1); simpl; [reflexivity|].
  destruct (icmp_code =? -1); simpl.
  - apply fmt_int_nonempty.
  - destruct (fmt_int icmp_type) eqn:E; [|reflexivity].
    pose proof (fmt_int_nonempty icmp_type) as H. now rewrite E in H.
Qed.

(** ** Closed forms of the compiler *)

Lemma handle_legacy (ni : network_info) :
  _handle_network_info_model (LegacyInfo (_handle_network_info_model ni))
  = _handle_network_info_model ni.
Proof. reflexivity. Qed.

Lemma rule_loop_closed (co : collaborators) (inst : instance)
    (l4 l6 : list string) :
  fold_left (fun lists security_group =>
               fold_left (add_sg_rule co)
                 (security_group_rule_get_by_security_group co security_group)
                 lists)
            (security_group_get_by_instance co inst) (l4, l6)
  = (l4 ++ flat_map (rule_fragments co)
             (List.filter (targets_ipv4 co) (rules_of_instance co inst)),
     l6 ++ flat_map (rule_fragments co)
             (List.filter (targets_ipv6_list co) (rules_of_instance co inst))).
Proof.
  rewrite (fold_left_nested (security_group_rule_get_by_security_group co)).
  apply (fold_left_two_lists (targets_ipv4 co) (rule_fragments co)).
Qed.

Lemma labelled_rule_loop_closed (co : collaborators) (inst : instance)
    (l4 l6 : list Provenance.entry) :
  fold_left (fun lists security_group =>
               fold_left (Provenance.add_sg_rule co)
                 (security_group_rule_get_by_security_group co security_group)
                 lists)
            (security_group_get_by_instance co inst) (l4, l6)
  = (l4 ++ flat_map (labelled_fragments co)
             (List.filter (targets_ipv4 co) (rules_of_instance co inst)),
     l6 ++ flat_map (labelled_fragments co)
             (List.filter (targets_ipv6_list co) (rules_of_instance co inst))).
Proof.
  rewrite (fold_left_nested (security_group_rule_get_by_security_group co)).
  apply (fold_left_two_lists (targets_ipv4 co) (labelled_fragments co)).
Qed.

Theorem instance_rules_closed (cf : conf) (co : collaborators)
    (inst : instance) (ni : network_info) :
  instance_rules cf co inst ni =
  (prelude ++ dhcp_entries ni
     ++ (if allow_same_net_traffic cf then same_network_v4 ni else [])
     ++ flat_map (rule_fragments co)
          (List.filter (targets_ipv4 co) (rules_of_instance co inst))
     ++ [fallback_jump],
   prelude
     ++ (if allow_same_net_traffic cf && use_ipv6 cf
         then same_network_v6 ni else [])
     ++ (if use_ipv6 cf then ra_entries ni else [])
     ++ flat_map (rule_fragments co)
          (List.filter (targets_ipv6_list co) (rules_of_instance co inst))
     ++ [fallback_jump]).
Proof.
  unfold instance_rules, _do_basic_rules, _do_dhcp_rules,
    _do_project_network_rules, _do_ra_rules.
  rewrite !handle_legacy.
  rewrite (fold_left_append_if truthy dhcp_rule).
  destruct (allow_same_net_traffic cf), (use_ipv6 cf); simpl;
    rewrite ?fold_left_append_one, rule_loop_closed;
    unfold dhcp_entries, same_network_v4, same_network_v6, ra_entries, prelude;
    simpl; now rewrite <- ?app_assoc.
Qed.

Theorem labelled_instance_rules_closed (cf : conf) (co : collaborators)
    (inst : instance) (ni : network_info) :
  Provenance.instance_rules cf co inst ni =
  (map (pair Provenance.Prelude) prelude
     ++ map (pair Provenance.Dhcp) (dhcp_entries ni)
     ++ (if allow_same_net_traffic cf
         then map (pair Provenance.SameNetwork) (same_network_v4 ni) else [])
     ++ flat_map (labelled_fragments co)
          (List.filter (targets_ipv4 co) (rules_of_instance co inst))
     ++ [(Provenance.Fallback, fallback_jump)],
   map (pair Provenance.Prelude) prelude
     ++ (if allow_same_net_traffic cf && use_ipv6 cf
         then map (pair Provenance.SameNetwork) (same_network_v6 ni) else [])
     ++ (if use_ipv6 cf
         then map (pair Provenance.RouterAdvertisement) (ra_entries ni) else [])
     ++ flat_map (labelled_fragments co)
          (List.filter (targets_ipv6_list co) (rules_of_instance co inst))
     ++ [(Provenance.Fallback, fallback_jump)]).
Proof.
  unfold Provenance.instance_rules, Provenance._do_basic_rules,
    Provenance._do_dhcp_rules, Provenance._do_project_network_rules,
    Provenance._do_ra_rules.
  rewrite !handle_legacy.
  rewrite (fold_left_append_if truthy (fun d => (Provenance.Dhcp, dhcp_rule d))).
  destruct (allow_same_net_traffic cf), (use_ipv6 cf); simpl;
    rewrite ?(fold_left_append_one
                (fun c => (Provenance.SameNetwork, accept_from c))),
            ?(fold_left_append_one
                (fun g => (Provenance.RouterAdvertisement, ra_rule g))),
            labelled_rule_loop_closed;
    unfold dhcp_entries, same_network_v4, same_network_v6, ra_entries, prelude;
    simpl; rewrite <- ?app_assoc, ?map_map; reflexivity.
Qed.

Lemma erase_labelled_fragments (co : collaborators) (rules : list sg_rule) :
  map Provenance.text (flat_map (labelled_fragments co) rules)
  = flat_map (rule_fragments co) rules.
Proof.
  induction rules as [|r rules IH]; simpl; [reflexivity|].
  rewrite map_app, IH. unfold labelled_fragments.
  rewrite map_map. simpl. now rewrite map_id.
Qed.

Lemma erase_label (o : Provenance.origin) (l : list string) :
  map Provenance.text (map (pair o) l) = l.
Proof. rewrite map_map. simpl. apply map_id. Qed.

(** Dropping the labels of the labelled compiler gives the compiler. *)
Theorem erase_instance_rules (cf : conf) (co : collaborators)
    (inst : instance) (ni : network_info) :
  Provenance.erase (Provenance.instance_rules cf co inst ni)
  = instance_rules cf co inst ni.
Proof.
  rewrite labelled_instance_rules_closed, instance_rules_closed.
  unfold Provenance.erase. cbn [fst snd].
  rewrite !map_app, !erase_labelled_fragments, !erase_label.
  destruct (allow_same_net_traffic cf), (use_ipv6 cf); simpl;
    rewrite ?erase_label; reflexivity.
Qed.

(** ** Where labelled entries come from *)

Lemma in_labelled (o : Provenance.origin) (l : list string)
    (e : Provenance.entry) :
  In e (map (pair o) l) -> Provenance.source e = o /\ In (Provenance.text e) l.
Proof.
  intros H. apply in_map_iff in H as (s & <- & Hs). now split.
Qed.

Lemma in_labelled_fragments (co : collaborators) (rules : list sg_rule)
    (e : Provenance.entry) :
  In e (flat_map (labelled_fragments co) rules) <->
  exists r, In r rules /\ Provenance.source e = Provenance.GroupRule r
            /\ In (Provenance.text e) (rule_fragments co r).
Proof.
  rewrite in_flat_map. split.
  - intros (r & Hr & He). exists r. split; [exact Hr|].
    now apply in_labelled in He.
  - intros (r & Hr & Hs & Ht). exists r. split; [exact Hr|].
    unfold labelled_fragments. apply in_map_iff.
    exists (Provenance.text e). split; [|exact Ht].
    destruct e as [o s]. simpl in *. now subst.
Qed.

(** ** The prelude and the fallback jump *)

(** C4: for every configuration, entity, topology and rule set, both
    compiled lists start with the three prelude entries in the order
    INVALID drop, ESTABLISHED/RELATED accept, provider jump, and end with
    the jump to the fallback chain; everything in between (the DHCP,
    same-network, router-advertisement and group-derived entries) is
    policy-derived, and nothing policy-derived is outside the middle. *)
Theorem prelude_first_fallback_last (cf : conf) (co : collaborators)
    (inst : instance) (ni : network_info) :
  exists m4 m6 : list Provenance.entry,
    Provenance.instance_rules cf co inst ni =
      ((Provenance.Prelude, "-m state --state INVALID -j DROP")
         :: (Provenance.Prelude, "-m state --state ESTABLISHED,RELATED -j ACCEPT")
         :: (Provenance.Prelude, "-j $provider")
         :: m4 ++ [(Provenance.Fallback, "-j $sg-fallback")],
       (Provenance.Prelude, "-m state --state INVALID -j DROP")
         :: (Provenance.Prelude, "-m state --state ESTABLISHED,RELATED -j ACCEPT")
         :: (Provenance.Prelude, "-j $provider")
         :: m6 ++ [(Provenance.Fallback, "-j $sg-fallback")])
    /\ Forall Provenance.policy_derived m4
    /\ Forall Provenance.policy_derived m6
    /\ instance_rules cf co inst ni =
         ("-m state --state INVALID -j DROP"
            :: "-m state --state ESTABLISHED,RELATED -j ACCEPT"
            :: "-j $provider"
            :: map Provenance.text m4 ++ ["-j $sg-fallback"],
          "-m state --state INVALID -j DROP"
            :: "-m state --state ESTABLISHED,RELATED -j ACCEPT"
            :: "-j $provider"
            :: map Provenance.text m6 ++ ["-j $sg-fallback"]).
Proof.
  pose proof (erase_instance_rules cf co inst ni) as Herase.
  rewrite labelled_instance_rules_closed in Herase |- *.
  exists (map (pair Provenance.Dhcp) (dhcp_entries ni)
            ++ (if allow_same_net_traffic cf
                then map (pair Provenance.SameNetwork) (same_network_v4 ni)
                else [])
            ++ flat_map (labelled_fragments co)
                 (List.filter (targets_ipv4 co) (rules_of_instance co inst))),
         ((if allow_same_net_traffic cf && use_ipv6 cf
           then map (pair Provenance.SameNetwork) (same_network_v6 ni) else [])
            ++ (if use_ipv6 cf
                then map (pair Provenance.RouterAdvertisement) (ra_entries ni)
                else [])
            ++ flat_map (labelled_fragments co)
                 (List.filter (targets_ipv6_list co) (rules_of_instance co inst))).
  split; [|split; [|split]].
  - unfold prelude, fallback_jump. simpl. rewrite <- !app_assoc. reflexivity.
  - apply List.Forall_forall. intros e He.
    rewrite !in_app_iff in He. destruct He as [He|[He|He]].
    + now apply in_labelled in He as [Hs _]; unfold Provenance.policy_derived; rewrite Hs.
    + destruct (allow_same_net_traffic cf); [|destruct He].
      now apply in_labelled in He as [Hs _]; unfold Provenance.policy_derived; rewrite Hs.
    + apply in_labelled_fragments in He as (r & _ & Hs & _).
      unfold Provenance.policy_derived. now rewrite Hs.
  - apply List.Forall_forall. intros e He.
    rewrite !in_app_iff in He. destruct He as [He|[He|He]].
    + destruct (allow_same_net_traffic cf && use_ipv6 cf); [|destruct He].
      now apply in_labelled in He as [Hs _]; unfold Provenance.policy_derived; rewrite Hs.
    + destruct (use_ipv6 cf); [|destruct He].
      now apply in_labelled in He as [Hs _]; unfold Provenance.policy_derived; rewrite Hs.
    + apply in_labelled_fragments in He as (r & _ & Hs & _).
      unfold Provenance.policy_derived. now rewrite Hs.
  - rewrite <- Herase. unfold Provenance.erase, prelude, fallback_jump.
    cbn [fst snd]. simpl. rewrite !map_app, <- !app_assoc. reflexivity.
Qed.

(** ** The IPv6 list when IPv6 is disabled *)

(** C1, as stated, fails: with [use_ipv6] off, a group rule whose CIDR is an
    IPv6 block is still compiled into the IPv6 list. *)
Lemma ipv6_off_list_keeps_v6_cidr_rules :
  use_ipv6 Examples.ipv6_off = false
  /\ snd (instance_rules Examples.ipv6_off
            (Examples.policy [Examples.tcp80_from_v6] [])
            Examples.inst1 Examples.topology)
     = ["-m state --state INVALID -j DROP";
        "-m state --state ESTABLISHED,RELATED -j ACCEPT";
        "-j $provider";
        "-j ACCEPT -p tcp --dport 80 -s fe80::/64";
        "-j $sg-fallback"]
  /\ ~ free_of_policy_entries
         (snd (Provenance.instance_rules Examples.ipv6_off
                 (Examples.policy [Examples.tcp80_from_v6] [])
                 Examples.inst1 Examples.topology)).
Proof.
  split; [reflexivity|]. split; [reflexivity|].
  intros H. unfold free_of_policy_entries in H.
  rewrite List.Forall_forall in H.
  apply (H (Provenance.GroupRule Examples.tcp80_from_v6,
            "-j ACCEPT -p tcp --dport 80 -s fe80::/64")).
  - vm_compute. tauto.
  - exact I.
Qed.

(** C1, amended: with [use_ipv6] off the IPv6 list holds the prelude, then
    the fragments of the group rules whose CIDR is not an IPv4 block, in
    rule order, then the fallback jump. It holds no DHCP, same-network or
    router-advertisement entry, and every group-derived entry in it comes
    from a rule of the instance's groups that has a CIDR of a version other
    than 4. *)
Theorem ipv6_off_list (cf : conf) (co : collaborators) (inst : instance)
    (ni : network_info) :
  use_ipv6 cf = false ->
  snd (instance_rules cf co inst ni)
  = prelude
      ++ flat_map (rule_fragments co)
           (List.filter (targets_ipv6_list co) (rules_of_instance co inst))
      ++ [fallback_jump]
  /\ Forall (fun e =>
               match Provenance.source e with
               | Provenance.Prelude | Provenance.Fallback => True
               | Provenance.GroupRule r =>
                   In r (rules_of_instance co inst)
                   /\ truthy (rule_cidr r) = true
                   /\ rule_version co r <> 4
               | Provenance.Dhcp | Provenance.SameNetwork
               | Provenance.RouterAdvertisement => False
               end)
            (snd (Provenance.instance_rules cf co inst ni)).
Proof.
  intros Hoff. split.
  - rewrite instance_rules_closed, Hoff, andb_false_r. reflexivity.
  - rewrite labelled_instance_rules_closed, Hoff, andb_false_r. cbn [snd].
    apply List.Forall_forall. intros e He.
    rewrite !in_app_iff in He. destruct He as [He|[[]|[[]|[He|He]]]].
    + apply in_labelled in He as [-> _]. exact I.
    + apply in_labelled_fragments in He as (r & Hr & -> & _).
      apply filter_In in Hr as [Hr Hv]. split; [exact Hr|].
      unfold targets_ipv6_list, targets_ipv4, rule_version in Hv |- *.
      destruct (truthy (rule_cidr r)); simpl in *; [|discriminate].
      split; [reflexivity|].
      intros Heq. rewrite Heq in Hv. discriminate.
    + destruct He as [<-|[]]. exact I.
Qed.

Lemma ipv6_off_list_witness :
  use_ipv6 Examples.ipv6_off = false
  /\ snd (instance_rules Examples.ipv6_off
            (Examples.policy
               [Examples.tcp80_from_v6; Examples.ssh_from_group;
                Examples.echo_from_v4] [])
            Examples.inst1 Examples.topology)
     = prelude ++ ["-j ACCEPT -p tcp --dport 80 -s fe80::/64"]
         ++ [fallback_jump].
Proof.
  split; [reflexivity|].
  exact (proj1 (ipv6_off_list Examples.ipv6_off
                  (Examples.policy
                     [Examples.tcp80_from_v6; Examples.ssh_from_group;
                      Examples.echo_from_v4] [])
                  Examples.inst1 Examples.topology eq_refl)).
Defined.

(** ** ICMP matches *)

Lemma build_icmp_rule_v4 (r : sg_rule) :
  _build_icmp_rule r 4 =
  if from_port r =? -1 then []
  else ["-m"; "icmp"; "--icmp-type";
        if to_port r =? -1 then fmt_int (from_port r)
        else fmt_int (from_port r) +:+ "/" +:+ fmt_int (to_port r)].
Proof.
  unfold _build_icmp_rule. rewrite icmp_type_arg_truthy.
  unfold icmp_type_arg.
  destruct (from_port r =? -1); simpl; [reflexivity|].
  now destruct (to_port r =? -1).
Qed.

Lemma eq_str_true (v : pystr) (s : string) : eq_str v s = true -> v = Some s.
Proof.
  destruct v as [x|]; simpl; [|discriminate].
  intros H. apply String.eqb_eq in H. now subst.
Qed.

Lemma provider_icmp_v4_args (co : collaborators) (p : provider_rule) :
  prule_protocol p = "icmp" -> provider_rule_version co p = 4 ->
  provider_rule_args co p =
  ["-p"; "icmp"; "-s"; prule_cidr p]
    ++ (if prule_from_port p =? -1 then []
        else ["-m"; "icmp"; "--icmp-type";
              if prule_to_port p =? -1 then fmt_int (prule_from_port p)
              else fmt_int (prule_from_port p) +:+ "/"
                     +:+ fmt_int (prule_to_port p)])
    ++ ["-j DROP"].
Proof.
  intros Hp Hv. unfold provider_rule_args. rewrite Hp, Hv. simpl.
  rewrite icmp_type_arg_truthy. unfold icmp_type_arg.
  destruct (prule_from_port p =? -1); simpl; [reflexivity|].
  now destruct (prule_to_port p =? -1).
Qed.

(** C8: for an ICMP rule compiled for IP version 4, a type of -1 gives no
    type or code match; a type >= 0 with code -1 gives a match on the type
    alone; type and code both >= 0 give a match on type/code. This holds
    for [_build_icmp_rule], for the [args] of an IPv4 security group rule
    whose protocol is icmp, and for the inlined copy in [_provider_rules]. *)
Theorem icmp_v4_type_code_match (co : collaborators) (r : sg_rule)
    (p : provider_rule) :
  ((from_port r = -1 -> _build_icmp_rule r 4 = [])
   /\ (0 <= from_port r -> to_port r = -1 ->
       _build_icmp_rule r 4
       = ["-m"; "icmp"; "--icmp-type"; fmt_int (from_port r)])
   /\ (0 <= from_port r -> 0 <= to_port r ->
       _build_icmp_rule r 4
       = ["-m"; "icmp"; "--icmp-type";
          fmt_int (from_port r) +:+ "/" +:+ fmt_int (to_port r)]))
  /\ (rule_version co r = 4 -> eq_str (rule_protocol_name co r) "icmp" = true ->
      rule_args co r = ["-j ACCEPT"; "-p"; "icmp"] ++ _build_icmp_rule r 4)
  /\ (prule_protocol p = "icmp" -> provider_rule_version co p = 4 ->
      (prule_from_port p = -1 ->
       provider_rule_args co p = ["-p"; "icmp"; "-s"; prule_cidr p; "-j DROP"])
      /\ (0 <= prule_from_port p -> prule_to_port p = -1 ->
          provider_rule_args co p
          = ["-p"; "icmp"; "-s"; prule_cidr p;
             "-m"; "icmp"; "--icmp-type"; fmt_int (prule_from_port p);
             "-j DROP"])
      /\ (0 <= prule_from_port p -> 0 <= prule_to_port p ->
          provider_rule_args co p
          = ["-p"; "icmp"; "-s"; prule_cidr p;
             "-m"; "icmp"; "--icmp-type";
             fmt_int (prule_from_port p) +:+ "/" +:+ fmt_int (prule_to_port p);
             "-j DROP"])).
Proof.
  split; [|split].
  - rewrite build_icmp_rule_v4. repeat split.
    + intros ->. reflexivity.
    + intros Ht ->. destruct (from_port r =? -1) eqn:E; [lia|reflexivity].
    + intros Ht Hc.
      destruct (from_port r =? -1) eqn:E; [lia|].
      destruct (to_port r =? -1) eqn:E'; [lia|reflexivity].
  - intros Hv Hp. unfold rule_args. rewrite Hv.
    apply eq_str_true in Hp. rewrite Hp. reflexivity.
  - intros Hp Hv. rewrite (provider_icmp_v4_args co p Hp Hv). repeat split.
    + intros ->. reflexivity.
    + intros Ht ->. destruct (prule_from_port p =? -1) eqn:E; [lia|reflexivity].
    + intros Ht Hc.
      destruct (prule_from_port p =? -1) eqn:E; [lia|].
      destruct (prule_to_port p =? -1) eqn:E'; [lia|reflexivity].
Qed.

Lemma icmp_v4_type_code_match_witness :
  _build_icmp_rule Examples.any_icmp_from_v4 4 = []
  /\ _build_icmp_rule Examples.echo_type_from_v4 4
     = ["-m"; "icmp"; "--icmp-type"; "8"]
  /\ _build_icmp_rule Examples.echo_from_v4 4
     = ["-m"; "icmp"; "--icmp-type"; "8/0"]
  /\ rule_args (Examples.policy [] []) Examples.echo_type_from_v4
     = ["-j ACCEPT"; "-p"; "icmp"; "-m"; "icmp"; "--icmp-type"; "8"]
  /\ provider_rule_args (Examples.policy [] []) Examples.provider_any_icmp_v4
     = ["-p"; "icmp"; "-s"; "198.51.100.0/24"; "-j DROP"]
  /\ provider_rule_args (Examples.policy [] []) Examples.provider_echo_type_v4
     = ["-p"; "icmp"; "-s"; "198.51.100.0/24";
        "-m"; "icmp"; "--icmp-type"; "8"; "-j DROP"]
  /\ provider_rule_args (Examples.policy [] []) Examples.provider_echo_v4
     = ["-p"; "icmp"; "-s"; "198.51.100.0/24";
        "-m"; "icmp"; "--icmp-type"; "8/0"; "-j DROP"].
Proof.
  pose (co := Examples.policy [] []).
  refine (conj _ (conj _ (conj _ (conj _ (conj _ (conj _ _)))))).
  - apply (proj1 (proj1 (icmp_v4_type_code_match
                           co Examples.any_icmp_from_v4
                           Examples.provider_echo_v4))).
    reflexivity.
  - apply (proj1 (proj2 (proj1 (icmp_v4_type_code_match
                                  co Examples.echo_type_from_v4
                                  Examples.provider_echo_v4))));
      [simpl; lia | reflexivity].
  - apply (proj2 (proj2 (proj1 (icmp_v4_type_code_match
                                  co Examples.echo_from_v4
                                  Examples.provider_echo_v4))));
      simpl; lia.
  - apply (proj1 (proj2 (icmp_v4_type_code_match
                           co Examples.echo_type_from_v4
                           Examples.provider_echo_v4)));
      reflexivity.
  - apply (proj1 (proj2 (proj2 (icmp_v4_type_code_match
                                  co Examples.echo_from_v4
                                  Examples.provider_any_icmp_v4))
                    eq_refl eq_refl)).
    reflexivity.
  - apply (proj1 (proj2 (proj2 (proj2 (icmp_v4_type_code_match
                                  co Examples.echo_from_v4
                                  Examples.provider_echo_type_v4))
                           eq_refl eq_refl)));
      [simpl; lia | reflexivity].
  - apply (proj2 (proj2 (proj2 (proj2 (icmp_v4_type_code_match
                                  co Examples.echo_from_v4
                                  Examples.provider_echo_v4))
                           eq_refl eq_refl)));
      simpl; lia.
Defined.

(** The protocol test that guards [_build_icmp_rule] runs after the
    rewrite of [icmp] to [icmpv6], so for version 6 it never succeeds. *)
Lemma rule_args_icmp_v6 (co : collaborators) (r : sg_rule) :
  rule_version co r = 6 ->
  (exists p, rule_protocol r = Some p /\ string_nonempty p = true
             /\ lower p = "icmp") ->
  rule_protocol_name co r = Some "icmpv6"
  /\ rule_args co r = ["-j ACCEPT"; "-p"; "icmpv6"].
Proof.
  intros Hv (p & Hp & Hne & Hlow).
  assert (Hname : rule_protocol_name co r = Some "icmpv6").
  { unfold rule_protocol_name. rewrite Hv, Hp. simpl. rewrite Hne. simpl.
    now rewrite Hlow. }
  split; [exact Hname|].
  unfold rule_args. now rewrite Hname.
Qed.

(** C2: the compiler at an IPv6 ICMP rule. The protocol name is rewritten
    to icmpv6, but whatever the ICMP type and code are, the fragment of a
    security group rule with an IPv6 CIDR, and of an IPv6 provider rule,
    carries no ICMPv6 type match, although [_build_icmp_rule] at version 6
    would give one for a type that is not -1. *)
Theorem icmp_v6_type_match_missing (co : collaborators) (r : sg_rule)
    (c : string) (p : provider_rule) :
  (rule_cidr r = Some c -> string_nonempty c = true ->
   get_ip_version co c = 6 ->
   (exists n, rule_protocol r = Some n /\ string_nonempty n = true
              /\ lower n = "icmp") ->
   rule_fragments co r = ["-j ACCEPT -p icmpv6 -s " +:+ c]
   /\ (from_port r <> -1 ->
       _build_icmp_rule r 6
       = ["-m"; "icmp6"; "--icmpv6-type";
          if to_port r =? -1 then fmt_int (from_port r)
          else fmt_int (from_port r) +:+ "/" +:+ fmt_int (to_port r)]))
  /\ (prule_protocol p = "icmp" -> provider_rule_version co p = 6 ->
      provider_rule_fragment co p
      = "-p icmpv6 -s " +:+ prule_cidr p +:+ " -j DROP").
Proof.
  split.
  - intros Hc Hne Hv Hproto.
    assert (Hver : rule_version co r = 6).
    { unfold rule_version. rewrite Hc. simpl. now rewrite Hne. }
    destruct (rule_args_icmp_v6 co r Hver Hproto) as [_ Hargs].
    split.
    + unfold rule_fragments. rewrite Hargs, Hc. simpl. rewrite Hne.
      reflexivity.
    + intros Ht. unfold _build_icmp_rule. rewrite icmp_type_arg_truthy.
      unfold icmp_type_arg.
      destruct (from_port r =? -1) eqn:E; [lia|]. simpl.
      now destruct (to_port r =? -1).
  - intros Hp Hv. unfold provider_rule_fragment, provider_rule_args.
    rewrite Hp, Hv. reflexivity.
Qed.

Lemma icmp_v6_type_match_missing_witness :
  rule_fragments (Examples.policy [] []) Examples.echo_from_v6
  = ["-j ACCEPT -p icmpv6 -s fe80::/64"]
  /\ _build_icmp_rule Examples.echo_from_v6 6
     = ["-m"; "icmp6"; "--icmpv6-type"; "8"]
  /\ provider_rule_fragment (Examples.policy [] []) Examples.provider_echo_v6
     = "-p icmpv6 -s 2001:db8::/32 -j DROP".
Proof.
  pose (co := Examples.policy [] []).
  destruct (icmp_v6_type_match_missing co Examples.echo_from_v6 "fe80::/64"
              Examples.provider_echo_v6) as [Hsg Hprov].
  destruct (Hsg eq_refl eq_refl eq_refl
              (ex_intro _ "icmp" (conj eq_refl (conj eq_refl eq_refl))))
    as [Hfrag Hbuild].
  refine (conj Hfrag (conj (Hbuild _) (Hprov eq_refl eq_refl))).
  simpl. lia.
Defined.

(** ** Group-sourced rules *)

Lemma rule_version_no_cidr (co : collaborators) (r : sg_rule) :
  truthy (rule_cidr r) = false -> rule_version co r = 4.
Proof. intros H. unfold rule_version. now rewrite H. Qed.

Lemma rule_args_head (co : collaborators) (r : sg_rule) :
  exists rest, rule_args co r = "-j ACCEPT" :: rest.
Proof.
  unfold rule_args.
  destruct (truthy (rule_protocol_name co r));
    destruct (pystr_in (rule_protocol_name co r) ["udp"; "tcp"]);
    destruct (eq_str (rule_protocol_name co r) "icmp");
    simpl; eauto.
Qed.

Lemma group_rule_fragments (co : collaborators) (r : sg_rule)
    (g : grantee_group_t) :
  truthy (rule_cidr r) = false -> grantee_group r = Some g ->
  rule_fragments co r
  = map (fun ip => join " " (rule_args co r ++ ["-s " +:+ ip]))
        (flat_map (member_ips co 4) (instances_of_group g)).
Proof.
  intros Hc Hg. unfold rule_fragments.
  rewrite Hc, Hg, (rule_version_no_cidr co r Hc).
  rewrite (fold_left_nested (member_ips co 4)
             (fun fw_rules ip =>
                fw_rules ++ [join " " (rule_args co r ++ ["-s " +:+ ip])])).
  now rewrite (fold_left_append_one
                 (fun ip => join " " (rule_args co r ++ ["-s " +:+ ip]))).
Qed.

Lemma add_group_rule (co : collaborators) (r : sg_rule)
    (l4 l6 : list string) :
  truthy (rule_cidr r) = false ->
  add_sg_rule co (l4, l6) r = (l4 ++ rule_fragments co r, l6).
Proof.
  intros Hc. unfold add_sg_rule. now rewrite (rule_version_no_cidr co r Hc).
Qed.

Lemma fragments_reach_the_lists (cf : conf) (co : collaborators)
    (inst : instance) (ni : network_info) (r : sg_rule) (f : string) :
  In r (rules_of_instance co inst) -> In f (rule_fragments co r) ->
  if targets_ipv4 co r
  then In (Provenance.GroupRule r, f)
          (fst (Provenance.instance_rules cf co inst ni))
       /\ In f (fst (instance_rules cf co inst ni))
  else In (Provenance.GroupRule r, f)
          (snd (Provenance.instance_rules cf co inst ni))
       /\ In f (snd (instance_rules cf co inst ni)).
Proof.
  intros Hr Hf.
  rewrite labelled_instance_rules_closed, instance_rules_closed. cbn [fst snd].
  destruct (targets_ipv4 co r) eqn:Hv; split; rewrite !in_app_iff.
  - right; right; right; left. apply in_labelled_fragments.
    exists r. split; [|now split].
    apply filter_In. now split.
  - right; right; right; left. apply in_flat_map.
    exists r. split; [|exact Hf]. apply filter_In. now split.
  - right; right; right; left. apply in_labelled_fragments.
    exists r. split; [|now split].
    apply filter_In. unfold targets_ipv6_list. now rewrite Hv.
  - right; right; right; left. apply in_flat_map.
    exists r. split; [|exact Hf].
    apply filter_In. unfold targets_ipv6_list. now rewrite Hv.
Qed.

(** C5: a rule with no CIDR that names a group compiles to one ACCEPT
    fragment per address of the group's member instances, in member order,
    each made of the rule's [args] followed by [-s <address>]; with two
    members holding the addresses [a] and [b] these are two fragments, the
    first scoped to [a], the second to [b]. Nothing else is emitted for the
    rule, and the fragments are in the compiled IPv4 list. *)
Theorem group_rule_one_fragment_per_member (co : collaborators) (r : sg_rule)
    (g : grantee_group_t) :
  truthy (rule_cidr r) = false -> grantee_group r = Some g ->
  rule_fragments co r
  = map (fun ip => join " " (rule_args co r ++ ["-s " +:+ ip]))
        (flat_map (member_ips co 4) (instances_of_group g))
  /\ (exists rest, rule_args co r = "-j ACCEPT" :: rest)
  /\ (forall i1 i2 a b,
         instances_of_group g = [i1; i2] ->
         member_ips co 4 i1 = [a] -> member_ips co 4 i2 = [b] ->
         rule_fragments co r
         = [join " " (rule_args co r ++ ["-s " +:+ a]);
            join " " (rule_args co r ++ ["-s " +:+ b])])
  /\ (forall cf inst ni f,
         In r (rules_of_instance co inst) -> In f (rule_fragments co r) ->
         In f (fst (instance_rules cf co inst ni))).
Proof.
  intros Hc Hg. split; [|split; [|split]].
  - exact (group_rule_fragments co r g Hc Hg).
  - apply rule_args_head.
  - intros i1 i2 a b Hm Ha Hb.
    rewrite (group_rule_fragments co r g Hc Hg), Hm. simpl.
    now rewrite Ha, Hb.
  - intros cf inst ni f Hr Hf.
    pose proof (fragments_reach_the_lists cf co inst ni r f Hr Hf) as H.
    unfold targets_ipv4 in H.
    rewrite (rule_version_no_cidr co r Hc) in H. apply H.
Qed.

Lemma group_rule_one_fragment_per_member_witness :
  rule_fragments (Examples.policy [Examples.ssh_from_group] [])
    Examples.ssh_from_group
  = ["-j ACCEPT -p tcp --dport 22 -s 10.0.0.7";
     "-j ACCEPT -p tcp --dport 22 -s 10.0.0.8"]
  /\ In "-j ACCEPT -p tcp --dport 22 -s 10.0.0.8"
        (fst (instance_rules Examples.ipv6_on
                (Examples.policy [Examples.ssh_from_group] [])
                Examples.inst1 Examples.topology)).
Proof.
  destruct (group_rule_one_fragment_per_member
              (Examples.policy [Examples.ssh_from_group] [])
              Examples.ssh_from_group
              {| instances_of_group := [Examples.member_a; Examples.member_b] |}
              eq_refl eq_refl) as (_ & _ & Htwo & Hin).
  split.
  - exact (Htwo Examples.member_a Examples.member_b "10.0.0.7" "10.0.0.8"
             eq_refl eq_refl eq_refl).
  - apply Hin; [left; reflexivity | right; left; reflexivity].
Defined.

Lemma member_ips_spec (co : collaborators) (v : Z) (inst : instance)
    (a : string) :
  In a (member_ips co v inst) <->
  exists ip, In ip (get_instance_nw_info co inst) /\ version_of ip = v
             /\ address ip = a.
Proof.
  unfold member_ips. rewrite in_map_iff. split.
  - intros (ip & Ha & Hip). apply filter_In in Hip as [Hin Hv].
    exists ip. repeat split; [exact Hin | lia | exact Ha].
  - intros (ip & Hin & Hv & Ha). exists ip. split; [exact Ha|].
    apply filter_In. split; [exact Hin | lia].
Qed.

(** C10: a rule with no CIDR is compiled for IP version 4. Its fragments
    are built from the version-4 addresses of the members only, they are
    appended to the IPv4 list and the IPv6 list is left as it was; no entry
    of a compiled IPv6 list comes from such a rule, whatever addresses the
    members have. *)
Theorem group_rule_is_ipv4_only (co : collaborators) (r : sg_rule) :
  truthy (rule_cidr r) = false ->
  rule_version co r = 4
  /\ (forall l4 l6,
         add_sg_rule co (l4, l6) r = (l4 ++ rule_fragments co r, l6))
  /\ (forall f, In f (rule_fragments co r) ->
        exists g inst ip,
          grantee_group r = Some g /\ In inst (instances_of_group g)
          /\ In ip (get_instance_nw_info co inst) /\ version_of ip = 4
          /\ f = join " " (rule_args co r ++ ["-s " +:+ address ip]))
  /\ (forall cf inst ni f,
        ~ In (Provenance.GroupRule r, f)
             (snd (Provenance.instance_rules cf co inst ni))).
Proof.
  intros Hc. split; [|split; [|split]].
  - exact (rule_version_no_cidr co r Hc).
  - intros l4 l6. exact (add_group_rule co r l4 l6 Hc).
  - intros f Hf. destruct (grantee_group r) as [g|] eqn:Hg.
    + rewrite (group_rule_fragments co r g Hc Hg) in Hf.
      apply in_map_iff in Hf as (a & <- & Ha).
      apply in_flat_map in Ha as (inst & Hinst & Ha).
      apply member_ips_spec in Ha as (ip & Hip & Hv & <-).
      exists g, inst, ip. repeat split; assumption.
    + unfold rule_fragments in Hf. rewrite Hc, Hg in Hf. destruct Hf.
  - intros cf inst ni f Hin.
    rewrite labelled_instance_rules_closed in Hin. cbn [snd] in Hin.
    rewrite !in_app_iff in Hin. destruct Hin as [H|[H|[H|[H|H]]]].
    + apply in_labelled in H as [H _]. discriminate H.
    + destruct (allow_same_net_traffic cf && use_ipv6 cf); [|destruct H].
      apply in_labelled in H as [H _]. discriminate H.
    + destruct (use_ipv6 cf); [|destruct H].
      apply in_labelled in H as [H _]. discriminate H.
    + apply in_labelled_fragments in H as (r' & Hr' & Hs & _).
      simpl in Hs. injection Hs as <-.
      apply filter_In in Hr' as [_ Hv].
      unfold targets_ipv6_list, targets_ipv4 in Hv.
      rewrite (rule_version_no_cidr co r Hc) in Hv. discriminate Hv.
    + destruct H as [H|[]]. discriminate H.
Qed.

Lemma group_rule_is_ipv4_only_witness :
  rule_version (Examples.policy [Examples.ssh_from_group] [])
    Examples.ssh_from_group = 4
  /\ add_sg_rule (Examples.policy [Examples.ssh_from_group] []) ([], [])
       Examples.ssh_from_group
     = (["-j ACCEPT -p tcp --dport 22 -s 10.0.0.7";
         "-j ACCEPT -p tcp --dport 22 -s 10.0.0.8"], [])
  /\ ~ In (Provenance.GroupRule Examples.ssh_from_group,
           "-j ACCEPT -p tcp --dport 22 -s fd00::7")
          (snd (Provenance.instance_rules Examples.ipv6_on
                  (Examples.policy [Examples.ssh_from_group] [])
                  Examples.inst1 Examples.topology)).
Proof.
  destruct (group_rule_is_ipv4_only
              (Examples.policy [Examples.ssh_from_group] [])
              Examples.ssh_from_group eq_refl) as (Hv & Hadd & _ & Hno).
  exact (conj Hv (conj (Hadd [] []) (Hno _ _ _ _))).
Defined.

(** ** Running driver methods *)

Lemma runs_ret {A} (a : A) (d : driver) : runs (mret a) d a d [].
Proof. reflexivity. Qed.

Lemma runs_emit (e : event) (d : driver) : runs (emit e) d tt d [e].
Proof. reflexivity. Qed.

Lemma runs_bind {A B} (m : M A) (k : A -> M B) (d d' d'' : driver) (a : A)
    (b : B) (t t' : list event) :
  runs m d a d' t -> runs (k a) d' b d'' t' ->
  runs (m ≫= k) d b d'' (t ++ t').
Proof.
  unfold runs, mbind, M_bind. intros Hm Hk. now rewrite Hm, Hk.
Qed.

Lemma runs_trace {A} (m : M A) (d d' : driver) (a : A) (t t' : list event) :
  runs m d a d' t -> t = t' -> runs m d a d' t'.
Proof. now intros H <-. Qed.

Lemma runs_for_each_emit {A} (f : A -> event) (l : list A) (d : driver) :
  runs (for_each l (fun x => emit (f x))) d tt d (map f l).
Proof.
  induction l as [|x l IH]; [reflexivity|].
  simpl. apply (runs_bind _ _ d d d tt tt [f x] (map f l)); [reflexivity|exact IH].
Qed.

Lemma runs_when (b : bool) (m : M unit) (d : driver) (t : list event) :
  (b = true -> runs m d tt d t) ->
  runs (when b m) d tt d (if b then t else []).
Proof.
  destruct b; simpl; intros H; [now apply H | reflexivity].
Qed.

Lemma runs_synchronized {A} (name : string) (m : M A) (d d' : driver) (a : A)
    (t : list event) :
  runs m d a d' t ->
  runs (synchronized name m) d a d'
       ([LockAcquire name] ++ t ++ [LockRelease name]).
Proof. unfold runs, synchronized. now intros ->. Qed.

Lemma runs_add_filters (cf : conf) (chain : string) (l4 l6 : list string)
    (d : driver) :
  runs (_add_filters cf chain l4 l6) d tt d
       (map (AddRule Ipv4Filter chain) l4
          ++ (if use_ipv6 cf then map (AddRule Ipv6Filter chain) l6 else [])).
Proof.
  unfold _add_filters.
  eapply runs_bind; [apply runs_for_each_emit|].
  apply runs_when. intros _. apply runs_for_each_emit.
Qed.

(** ** Provider rules *)

Lemma flat_map_singleton {A B} (f : A -> B) (l : list A) :
  flat_map (fun x => [f x]) l = map f l.
Proof. induction l as [|x l IH]; simpl; [reflexivity | now rewrite IH]. Qed.

Lemma _provider_rules_closed (co : collaborators) :
  _provider_rules co
  = (map (provider_rule_fragment co)
         (List.filter (provider_targets_ipv4 co) (provider_fw_rule_get_all co)),
     map (provider_rule_fragment co)
         (List.filter (fun p => negb (provider_targets_ipv4 co p))
                      (provider_fw_rule_get_all co))).
Proof.
  unfold _provider_rules.
  rewrite <- !flat_map_singleton.
  apply (fold_left_two_lists (provider_targets_ipv4 co)
           (fun p => [provider_rule_fragment co p])).
Qed.

Lemma provider_rule_args_shape (co : collaborators) (p : provider_rule) :
  exists rest, provider_rule_args co p = ("-p" :: rest) ++ ["-j DROP"].
Proof.
  unfold provider_rule_args. cbv zeta.
  repeat match goal with
         | |- context [if ?b then _ else _] => destruct b
         end; eexists; reflexivity.
Qed.

Lemma provider_fragment_drops (co : collaborators) (p : provider_rule) :
  ends_with " -j DROP" (provider_rule_fragment co p)
  /\ ~ ends_with "ACCEPT" (provider_rule_fragment co p).
Proof.
  destruct (provider_rule_args_shape co p) as [rest Hshape].
  assert (Hdrop : ends_with " -j DROP" (provider_rule_fragment co p)).
  { unfold provider_rule_fragment. rewrite Hshape.
    rewrite join_snoc by discriminate.
    now exists (join " " ("-p" :: rest)). }
  split; [exact Hdrop|].
  intros [body' Haccept]. destruct Hdrop as [body Hdrop].
  assert (H : last_ascii (body +:+ " -j DROP") = last_ascii (body' +:+ "ACCEPT"))
    by now rewrite <- Hdrop, <- Haccept.
  rewrite !last_ascii_append in H by reflexivity.
  discriminate H.
Qed.

Lemma runs_refresh_provider_fw_rules (cf : conf) (co : collaborators)
    (d : driver) :
  runs (refresh_provider_fw_rules cf co) d tt d
       (provider_refresh_trace cf (_provider_rules co)).
Proof.
  unfold refresh_provider_fw_rules, _do_refresh_provider_fw_rules,
    _purge_provider_fw_rules, _build_provider_fw_rules, provider_refresh_trace.
  destruct (_provider_rules co) as [l4 l6]. cbn [fst snd].
  eapply runs_trace.
  - eapply runs_bind; [|apply runs_emit].
    apply runs_synchronized.
    eapply runs_bind.
    + eapply runs_bind; [apply runs_emit|].
      apply runs_when. intros _. apply runs_emit.
    + eapply runs_bind; [apply runs_emit|].
      eapply runs_bind; [apply runs_when; intros _; apply runs_emit|].
      eapply runs_bind; [apply runs_for_each_emit|].
      apply runs_when. intros _. apply runs_for_each_emit.
  - destruct (use_ipv6 cf); simpl; rewrite <- ?app_assoc; reflexivity.
Qed.

(** C6: a provider refresh, from any driver state, returns and issues,
    under the lock, first the emptying of the provider chain and then its
    rebuild: one [add_rule] per fragment of [_provider_rules], which holds
    one fragment for each rule the store returns (IPv4 rules in the IPv4
    list, the others in the IPv6 list, both in store order); the IPv6 table
    is touched only when [use_ipv6] is on. Nothing of the trace depends on
    the earlier state. Every fragment ends in [-j DROP] and none ends in
    ACCEPT. *)
Theorem provider_refresh_purges_then_rebuilds (cf : conf)
    (co : collaborators) (d : driver) :
  refresh_provider_fw_rules cf co d
  = (Returned tt, d,
     [LockAcquire "iptables"; EmptyChain Ipv4Filter "provider"]
       ++ (if use_ipv6 cf then [EmptyChain Ipv6Filter "provider"] else [])
       ++ [AddChain Ipv4Filter "provider"]
       ++ (if use_ipv6 cf then [AddChain Ipv6Filter "provider"] else [])
       ++ map (AddRule Ipv4Filter "provider") (fst (_provider_rules co))
       ++ (if use_ipv6 cf
           then map (AddRule Ipv6Filter "provider") (snd (_provider_rules co))
           else [])
       ++ [LockRelease "iptables"; Apply])
  /\ _provider_rules co
     = (map (provider_rule_fragment co)
            (List.filter (provider_targets_ipv4 co)
                         (provider_fw_rule_get_all co)),
        map (provider_rule_fragment co)
            (List.filter (fun p => negb (provider_targets_ipv4 co p))
                         (provider_fw_rule_get_all co)))
  /\ (forall f,
        In f (fst (_provider_rules co)) \/ In f (snd (_provider_rules co)) ->
        ends_with " -j DROP" f /\ ~ ends_with "ACCEPT" f).
Proof.
  split; [|split].
  - exact (runs_refresh_provider_fw_rules cf co d).
  - apply _provider_rules_closed.
  - intros f Hf. rewrite _provider_rules_closed in Hf. cbn [fst snd] in Hf.
    destruct Hf as [Hf|Hf]; apply in_map_iff in Hf as (p & <- & _);
      apply provider_fragment_drops.
Qed.

(** ** Unfiltering *)

Lemma runs_remove_filters_for_instance (cf : conf) (inst : instance)
    (d : driver) :
  runs (remove_filters_for_instance cf inst) d tt d
       ([RemoveChain Ipv4Filter (_instance_chain_name inst)]
          ++ (if use_ipv6 cf
              then [RemoveChain Ipv6Filter (_instance_chain_name inst)]
              else [])).
Proof.
  unfold remove_filters_for_instance.
  eapply runs_bind; [apply runs_emit|].
  apply runs_when. intros _. apply runs_emit.
Qed.

(** C7: unfiltering an instance whose id is not in [instances] returns,
    leaves the driver as it was and issues nothing but the info log line:
    no chain removal, no rule change, no apply. Unfiltering a tracked
    instance returns, drops its id from [instances] and [network_infos],
    removes its chain (from the IPv6 table too when [use_ipv6] is on) and
    applies. *)
Theorem unfilter_instance_unknown_and_known (cf : conf) (inst : instance)
    (ni : network_info) (d : driver) :
  (instances d !! instance_id inst = None ->
   unfilter_instance cf inst ni d
   = (Returned tt, d,
      [LogInfo "Attempted to unfilter instance which is not filtered"]))
  /\ (is_Some (instances d !! instance_id inst) ->
      is_Some (network_infos d !! instance_id inst) ->
      unfilter_instance cf inst ni d
      = (Returned tt,
         {| instances := delete (instance_id inst) (instances d);
            network_infos := delete (instance_id inst) (network_infos d);
            basically_filtered := basically_filtered d |},
         [RemoveChain Ipv4Filter (_instance_chain_name inst)]
           ++ (if use_ipv6 cf
               then [RemoveChain Ipv6Filter (_instance_chain_name inst)]
               else [])
           ++ [Apply])).
Proof.
  split.
  - intros Hnone. unfold unfilter_instance, mbind, M_bind, instances_pop.
    rewrite Hnone. simpl. rewrite (delete_id _ _ Hnone).
    now destruct d.
  - intros [i Hi] [n Hn].
    eapply runs_trace.
    + unfold unfilter_instance.
      eapply runs_bind; [reflexivity|]. rewrite Hi.
      eapply runs_bind.
      * unfold runs, network_infos_pop. simpl. rewrite Hn. reflexivity.
      * eapply runs_bind; [apply runs_remove_filters_for_instance|].
        apply runs_emit.
    + destruct (use_ipv6 cf); reflexivity.
Qed.

Lemma unfilter_instance_unknown_and_known_witness :
  unfilter_instance Examples.ipv6_on Examples.inst1 Examples.topology
    Examples.fresh
  = (Returned tt, Examples.fresh,
     [LogInfo "Attempted to unfilter instance which is not filtered"])
  /\ unfilter_instance Examples.ipv6_on Examples.inst1 Examples.topology
       Examples.tracking_inst1
     = (Returned tt,
        {| instances := delete 1 (instances Examples.tracking_inst1);
           network_infos := delete 1 (network_infos Examples.tracking_inst1);
           basically_filtered := false |},
        [RemoveChain Ipv4Filter "inst-1"; RemoveChain Ipv6Filter "inst-1";
         Apply]).
Proof.
  split.
  - apply (proj1 (unfilter_instance_unknown_and_known
                    Examples.ipv6_on Examples.inst1 Examples.topology
                    Examples.fresh)).
    reflexivity.
  - apply (proj2 (unfilter_instance_unknown_and_known
                    Examples.ipv6_on Examples.inst1 Examples.topology
                    Examples.tracking_inst1)).
    + exists Examples.inst1. reflexivity.
    + exists Examples.topology. reflexivity.
Defined.

(** ** Preparing and refreshing an instance *)

Lemma runs_add_filters_for_instance (cf : conf) (inst : instance)
    (ni : network_info) (l4 l6 : list string) (d : driver) :
  network_infos d !! instance_id inst = Some ni ->
  runs (add_filters_for_instance cf inst l4 l6) d tt d
       (add_filters_trace cf inst ni (l4, l6)).
Proof.
  intros Hni. unfold add_filters_for_instance, add_filters_trace.
  destruct (_filters_for_instance cf (_instance_chain_name inst) ni)
    as [j4 j6] eqn:Hj.
  eapply runs_trace.
  - eapply runs_bind.
    { unfold runs, network_infos_get. rewrite Hni. reflexivity. }
    cbv zeta. rewrite Hj.
    eapply runs_bind; [apply runs_when; intros _; apply runs_emit|].
    eapply runs_bind; [apply runs_emit|].
    eapply runs_bind; apply runs_add_filters.
  - cbn [fst snd]. destruct (use_ipv6 cf); simpl;
      rewrite <- ?app_assoc; reflexivity.
Qed.

Lemma runs_do_refresh_instance_rules (cf : conf) (co : collaborators)
    (inst : instance) (ni : network_info) (d : driver) :
  network_infos d !! instance_id inst = Some ni ->
  runs (do_refresh_instance_rules cf co inst) d tt d
       (refresh_trace cf inst ni (instance_rules cf co inst ni)).
Proof.
  intros Hni. unfold do_refresh_instance_rules, refresh_trace.
  destruct (instance_rules cf co inst ni) as [l4 l6] eqn:Hl.
  eapply runs_trace.
  - eapply runs_bind.
    { unfold runs, network_infos_get. rewrite Hni. reflexivity. }
    cbv zeta. rewrite Hl. unfold _inner_do_refresh_rules.
    apply runs_synchronized.
    eapply runs_bind; [apply runs_remove_filters_for_instance|].
    apply (runs_add_filters_for_instance cf inst ni). exact Hni.
  - simpl. rewrite <- !app_assoc. reflexivity.
Qed.

(** Preparing an instance records it and its topology under its id. *)
Lemma prepare_instance_filter_tracks (cf : conf) (co : collaborators)
    (inst : instance) (ni : network_info) (d : driver) :
  let stored := LegacyInfo (_handle_network_info_model ni) in
  let d' :=
    {| instances := <[instance_id inst := inst]> (instances d);
       network_infos := <[instance_id inst := stored]> (network_infos d);
       basically_filtered := basically_filtered d |} in
  runs (prepare_instance_filter cf co inst ni) d tt d'
       (add_filters_trace cf inst stored (instance_rules cf co inst stored)
          ++ provider_refresh_trace cf (_provider_rules co) ++ [Apply]).
Proof.
  intros stored d'. unfold prepare_instance_filter. fold stored.
  destruct (instance_rules cf co inst stored) as [l4 l6] eqn:Hl.
  eapply runs_trace.
  - eapply runs_bind; [reflexivity|].
    eapply runs_bind; [reflexivity|].
    eapply runs_bind.
    { apply (runs_add_filters_for_instance cf inst stored). simpl.
      apply lookup_insert_eq. }
    eapply runs_bind; [apply runs_refresh_provider_fw_rules|apply runs_emit].
  - reflexivity.
Qed.

(** ** Rules the specification calls invalid *)

Lemma labelled_group_entry (cf : conf) (co : collaborators) (inst : instance)
    (ni : network_info) (r : sg_rule) (f : string) :
  In (Provenance.GroupRule r, f) (fst (Provenance.instance_rules cf co inst ni))
  \/ In (Provenance.GroupRule r, f)
        (snd (Provenance.instance_rules cf co inst ni)) ->
  In r (rules_of_instance co inst) /\ In f (rule_fragments co r).
Proof.
  rewrite labelled_instance_rules_closed. cbn [fst snd].
  assert (Hlab : forall o l, o <> Provenance.GroupRule r ->
                   ~ In (Provenance.GroupRule r, f) (map (pair o) l)).
  { intros o l Ho H. apply in_labelled in H as [H _]. now apply Ho. }
  assert (Hfrag : forall rules,
             In (Provenance.GroupRule r, f)
                (flat_map (labelled_fragments co) rules) ->
             In r rules /\ In f (rule_fragments co r)).
  { intros rules H. apply in_labelled_fragments in H as (r' & Hr' & Hs & Hf).
    simpl in Hs. injection Hs as <-. now split. }
  rewrite !in_app_iff.
  intros [[H|[H|[H|[H|H]]]] | [H|[H|[H|[H|H]]]]].
  - now apply Hlab in H.
  - now apply Hlab in H.
  - destruct (allow_same_net_traffic cf); [now apply Hlab in H | destruct H].
  - apply Hfrag in H as [Hr Hf]. apply filter_In in Hr as [Hr _]. now split.
  - destruct H as [H|[]]. discriminate H.
  - now apply Hlab in H.
  - destruct (allow_same_net_traffic cf && use_ipv6 cf);
      [now apply Hlab in H | destruct H].
  - destruct (use_ipv6 cf); [now apply Hlab in H | destruct H].
  - apply Hfrag in H as [Hr Hf]. apply filter_In in Hr as [Hr _]. now split.
  - destruct H as [H|[]]. discriminate H.
Qed.

Lemma port_range_fragment (co : collaborators) (r : sg_rule) (c : string) :
  rule_cidr r = Some c -> string_nonempty c = true ->
  pystr_in (rule_protocol_name co r) ["udp"; "tcp"] = true ->
  from_port r <> to_port r ->
  rule_fragments co r
  = [join " " ["-j ACCEPT"; "-p"; fmt_s (rule_protocol_name co r);
               "-m"; "multiport"; "--dports";
               fmt_int (from_port r) +:+ ":" +:+ fmt_int (to_port r);
               "-s"; c]].
Proof.
  intros Hc Hne Hproto Hports.
  assert (Htruthy : truthy (rule_protocol_name co r) = true).
  { destruct (rule_protocol_name co r) as [x|]; [|discriminate Hproto].
    simpl in Hproto. rewrite orb_false_r in Hproto.
    apply orb_true_iff in Hproto as [H|H]; apply String.eqb_eq in H;
      subst; reflexivity. }
  unfold rule_fragments, rule_args. rewrite Hc, Hproto, Htruthy.
  simpl. rewrite Hne. unfold _build_tcp_udp_rule.
  destruct (from_port r =? to_port r) eqn:E; [lia|]. reflexivity.
Qed.

(** C3, as stated, fails: a rule with from_port > to_port is compiled into
    an ACCEPT fragment with the range as given, a rule with no source and
    no protocol is stepped over, and in both cases the refresh returns and
    replaces the chain. *)
Lemma reversed_port_range_is_compiled :
  invalid_rule Examples.reversed_range
  /\ invalid_rule Examples.sourceless
  /\ fst (instance_rules Examples.ipv6_on
            (Examples.policy [Examples.reversed_range; Examples.sourceless] [])
            Examples.inst1 Examples.topology)
     = ["-m state --state INVALID -j DROP";
        "-m state --state ESTABLISHED,RELATED -j ACCEPT";
        "-j $provider";
        "-s 10.0.0.1 -p udp --sport 67 --dport 68 -j ACCEPT";
        "-s 10.0.0.0/24 -j ACCEPT";
        "-j ACCEPT -p udp -m multiport --dports 100:50 -s 0.0.0.0/0";
        "-j $sg-fallback"]
  /\ ~ refresh_aborts Examples.ipv6_on
         (Examples.policy [Examples.reversed_range] [])
         Examples.inst1 Examples.tracking_inst1
  /\ ~ refresh_aborts Examples.ipv6_on
         (Examples.policy [Examples.sourceless] [])
         Examples.inst1 Examples.tracking_inst1.
Proof.
  split; [left; reflexivity|].
  split; [right; repeat split; reflexivity|].
  split; [reflexivity|].
  split.
  - unfold refresh_aborts.
    rewrite (runs_do_refresh_instance_rules Examples.ipv6_on _
               Examples.inst1 Examples.topology Examples.tracking_inst1
               eq_refl).
    intros [[e He] _]. discriminate He.
  - unfold refresh_aborts.
    rewrite (runs_do_refresh_instance_rules Examples.ipv6_on _
               Examples.inst1 Examples.topology Examples.tracking_inst1
               eq_refl).
    intros [[e He] _]. discriminate He.
Qed.

(** C3, amended: the compile step does not validate rules. A tcp or udp
    rule with a CIDR and from_port > to_port compiles to one ACCEPT
    fragment that carries the range [from:to] as given, in the compiled
    list of the CIDR's version; a rule with neither CIDR nor group
    reference contributes no entry to either list. The refresh of a
    tracked instance returns and, under the lock, removes the instance's
    chain and adds it back with the compiled lists. *)
Theorem invalid_rules_are_not_rejected (cf : conf) (co : collaborators)
    (inst : instance) (ni : network_info) (d : driver) (r : sg_rule) :
  network_infos d !! instance_id inst = Some ni ->
  In r (rules_of_instance co inst) ->
  do_refresh_instance_rules cf co inst d
  = (Returned tt, d, refresh_trace cf inst ni (instance_rules cf co inst ni))
  /\ (forall c,
        rule_cidr r = Some c -> string_nonempty c = true ->
        pystr_in (rule_protocol_name co r) ["udp"; "tcp"] = true ->
        from_port r > to_port r ->
        let fragment :=
          join " " ["-j ACCEPT"; "-p"; fmt_s (rule_protocol_name co r);
                    "-m"; "multiport"; "--dports";
                    fmt_int (from_port r) +:+ ":" +:+ fmt_int (to_port r);
                    "-s"; c] in
        rule_fragments co r = [fragment]
        /\ In fragment
              (if get_ip_version co c =? 4
               then fst (instance_rules cf co inst ni)
               else snd (instance_rules cf co inst ni)))
  /\ (truthy (rule_cidr r) = false -> grantee_group r = None ->
      rule_fragments co r = []
      /\ forall f,
           ~ In (Provenance.GroupRule r, f)
                (fst (Provenance.instance_rules cf co inst ni))
           /\ ~ In (Provenance.GroupRule r, f)
                   (snd (Provenance.instance_rules cf co inst ni))).
Proof.
  intros Hni Hr. split; [|split].
  - exact (runs_do_refresh_instance_rules cf co inst ni d Hni).
  - intros c Hc Hne Hproto Hports fragment.
    assert (Hfrag : rule_fragments co r = [fragment])
      by (apply port_range_fragment; [assumption..|lia]).
    split; [exact Hfrag|].
    assert (Hf : In fragment (rule_fragments co r))
      by (rewrite Hfrag; now left).
    pose proof (fragments_reach_the_lists cf co inst ni r fragment Hr Hf) as H.
    unfold targets_ipv4, rule_version in H. rewrite Hc in H. simpl in H.
    rewrite Hne in H. simpl in H.
    destruct (get_ip_version co c =? 4); apply H.
  - intros Hc Hg.
    assert (Hnone : rule_fragments co r = [])
      by (unfold rule_fragments; now rewrite Hc, Hg).
    split; [exact Hnone|].
    intros f. split; intros H.
    + destruct (labelled_group_entry cf co inst ni r f (or_introl H))
        as [_ Hf].
      rewrite Hnone in Hf. destruct Hf.
    + destruct (labelled_group_entry cf co inst ni r f (or_intror H))
        as [_ Hf].
      rewrite Hnone in Hf. destruct Hf.
Qed.

Lemma invalid_rules_are_not_rejected_witness :
  do_refresh_instance_rules Examples.ipv6_off
    (Examples.policy [Examples.reversed_range; Examples.sourceless] [])
    Examples.inst1 Examples.tracking_inst1
  = (Returned tt, Examples.tracking_inst1,
     [LockAcquire "iptables";
      RemoveChain Ipv4Filter "inst-1";
      AddChain Ipv4Filter "inst-1";
      AddRule Ipv4Filter "local" "-d 10.0.0.5 -j $inst-1";
      AddRule Ipv4Filter "inst-1" "-m state --state INVALID -j DROP";
      AddRule Ipv4Filter "inst-1"
        "-m state --state ESTABLISHED,RELATED -j ACCEPT";
      AddRule Ipv4Filter "inst-1" "-j $provider";
      AddRule Ipv4Filter "inst-1"
        "-s 10.0.0.1 -p udp --sport 67 --dport 68 -j ACCEPT";
      AddRule Ipv4Filter "inst-1" "-s 10.0.0.0/24 -j ACCEPT";
      AddRule Ipv4Filter "inst-1"
        "-j ACCEPT -p udp -m multiport --dports 100:50 -s 0.0.0.0/0";
      AddRule Ipv4Filter "inst-1" "-j $sg-fallback";
      LockRelease "iptables"])
  /\ rule_fragments
       (Examples.policy [Examples.reversed_range; Examples.sourceless] [])
       Examples.reversed_range
     = ["-j ACCEPT -p udp -m multiport --dports 100:50 -s 0.0.0.0/0"]
  /\ rule_fragments
       (Examples.policy [Examples.reversed_range; Examples.sourceless] [])
       Examples.sourceless
     = [].
Proof.
  pose (co := Examples.policy [Examples.reversed_range; Examples.sourceless] []).
  destruct (invalid_rules_are_not_rejected Examples.ipv6_off co
              Examples.inst1 Examples.topology Examples.tracking_inst1
              Examples.reversed_range eq_refl (or_introl eq_refl))
    as (Hrun & Hrange & _).
  destruct (invalid_rules_are_not_rejected Examples.ipv6_off co
              Examples.inst1 Examples.topology Examples.tracking_inst1
              Examples.sourceless eq_refl (or_intror (or_introl eq_refl)))
    as (_ & _ & Hskip).
  refine (conj Hrun (conj _ (proj1 (Hskip eq_refl eq_refl)))).
  apply (Hrange "0.0.0.0/0"); [reflexivity | reflexivity | reflexivity |].
  simpl. lia.
Defined.

(** ** Worked scenarios *)

Example fmt_int_examples :
  fmt_int (-1) = "-1" /\ fmt_int 0 = "0" /\ fmt_int 8080 = "8080".
Proof. repeat split. Qed.

(** One tcp/80 rule from anywhere, one subnet, same-network traffic
    allowed. *)
Example single_tcp_rule_ipv4_list :
  fst (instance_rules Examples.ipv6_on
         (Examples.policy
            [{| rule_cidr := Some "0.0.0.0/0"; rule_protocol := Some "tcp";
                from_port := 80; to_port := 80; grantee_group := None |}] [])
         Examples.inst1
         (LegacyInfo
            [({| cidr := Some "10.0.0.0/24"; cidr_v6 := None |},
              {| ips := ["10.0.0.5"]; ip6s := []; dhcp_server := None;
                 gateway_v6 := None |})]))
  = ["-m state --state INVALID -j DROP";
     "-m state --state ESTABLISHED,RELATED -j ACCEPT";
     "-j $provider";
     "-s 10.0.0.0/24 -j ACCEPT";
     "-j ACCEPT -p tcp --dport 80 -s 0.0.0.0/0";
     "-j $sg-fallback"].
Proof. reflexivity. Qed.

(** A wildcard ICMP rule has no [--icmp-type] clause. *)
Example wildcard_icmp_fragment :
  rule_fragments (Examples.policy [] []) Examples.any_icmp_from_v4
  = ["-j ACCEPT -p icmp -s 192.0.2.0/24"].
Proof. reflexivity. Qed.

(** Preparing [inst1] on a fresh driver gives the tracking state used
    above, and unfiltering it afterwards empties both dictionaries. *)
Example prepare_then_unfilter :
  snd (fst (prepare_instance_filter Examples.ipv6_on (Examples.policy [] [])
              Examples.inst1 Examples.topology Examples.fresh))
  = Examples.tracking_inst1
  /\ snd (fst (unfilter_instance Examples.ipv6_on Examples.inst1
                 Examples.topology Examples.tracking_inst1))
     = Examples.fresh.
Proof. split; vm_compute; reflexivity. Qed.

(** * Further properties of the driver *)

(** ** Chain names *)

Lemma parse_fmt_int (n : Z) : parse_int (fmt_int n) = Some n.
Proof.
  unfold parse_int, fmt_int. rewrite NilZero.isi.
  - simpl. now rewrite DecimalZ.of_to.
  - destruct n; simpl; [discriminate | | discriminate].
    intros [= H]. now apply DecimalPos.Unsigned.to_uint_nonnil in H.
  - destruct n; simpl; [discriminate | discriminate |].
    intros [= H]. now apply DecimalPos.Unsigned.to_uint_nonnil in H.
Qed.

(** X1: the id of an instance can be read back from its chain name, and the
    number from what ['%s'] prints; so instances with different ids have
    different chains, and so have security groups. *)
Theorem chain_name_identifies_instance (i j : instance) (a b : Z) :
  chain_owner (_instance_chain_name i) = Some (instance_id i)
  /\ parse_int (fmt_int a) = Some a
  /\ (instance_id i <> instance_id j ->
      _instance_chain_name i <> _instance_chain_name j)
  /\ (a <> b -> _security_group_chain_name a <> _security_group_chain_name b).
Proof.
  assert (Hown : forall k, chain_owner (_instance_chain_name k)
                           = Some (instance_id k)).
  { intros k. unfold chain_owner, _instance_chain_name.
    change (strip_prefix "inst-" ("inst-" +:+ fmt_int (instance_id k)))
      with (Some (fmt_int (instance_id k))).
    apply parse_fmt_int. }
  split; [apply Hown|]. split; [apply parse_fmt_int|]. split.
  - intros Hne Heq. apply Hne.
    pose proof (Hown i) as Hi. rewrite Heq, Hown in Hi. now injection Hi.
  - intros Hne Heq. apply Hne. unfold _security_group_chain_name in Heq.
    apply (String.app_inj "nova-sg-") in Heq.
    pose proof (parse_fmt_int a) as Ha. rewrite Heq, parse_fmt_int in Ha.
    now injection Ha.
Qed.

Lemma chain_name_identifies_instance_witness :
  _instance_chain_name Examples.inst1 <> _instance_chain_name Examples.member_a
  /\ _security_group_chain_name 1 <> _security_group_chain_name 10.
Proof.
  destruct (chain_name_identifies_instance Examples.inst1 Examples.member_a
              1 10) as (_ & _ & Hinst & Hsg).
  split; [apply Hinst | apply Hsg]; simpl; lia.
Defined.

(** ** Protocols and ports *)

Lemma lower_ascii_idempotent (c : ascii) :
  lower_ascii (lower_ascii c) = lower_ascii c.
Proof. destruct c as [[] [] [] [] [] [] [] []]; reflexivity. Qed.

Lemma lower_idempotent (s : string) : lower (lower s) = lower s.
Proof.
  induction s as [|c s IH]; simpl; [reflexivity|].
  now rewrite lower_ascii_idempotent, IH.
Qed.

Lemma lower_nonempty (s : string) :
  string_nonempty (lower s) = string_nonempty s.
Proof. now destruct s. Qed.

(** The fragments of a rule depend on its protocol only through the
    protocol name the loop body computes. *)
Lemma rule_fragments_by_protocol_name (co : collaborators) (r r' : sg_rule) :
  rule_cidr r = rule_cidr r' -> from_port r = from_port r' ->
  to_port r = to_port r' -> grantee_group r = grantee_group r' ->
  rule_protocol_name co r = rule_protocol_name co r' ->
  rule_version co r = rule_version co r'
  /\ rule_args co r = rule_args co r'
  /\ rule_fragments co r = rule_fragments co r'.
Proof.
  intros Hc Hf Ht Hg Hn.
  assert (Hv : rule_version co r = rule_version co r')
    by (unfold rule_version; now rewrite Hc).
  assert (Ha : rule_args co r = rule_args co r').
  { unfold rule_args, _build_tcp_udp_rule, _build_icmp_rule.
    now rewrite Hn, Hv, Hf, Ht. }
  repeat split; [exact Hv | exact Ha |].
  unfold rule_fragments. now rewrite Ha, Hv, Hc, Hg.
Qed.

(** X2: the instance compiler reads the protocol of a security group rule
    without regard to case: a rule and the same rule with its protocol in
    lower case compile to the same fragments, for the same list. *)
Theorem group_rule_protocol_case (co : collaborators) (r : sg_rule)
    (p : string) (l4 l6 : list string) :
  rule_fragments co (with_protocol r (Some p))
  = rule_fragments co (with_protocol r (Some (lower p)))
  /\ add_sg_rule co (l4, l6) (with_protocol r (Some p))
     = add_sg_rule co (l4, l6) (with_protocol r (Some (lower p))).
Proof.
  assert (Hn : rule_protocol_name co (with_protocol r (Some p))
               = rule_protocol_name co (with_protocol r (Some (lower p)))).
  { unfold rule_protocol_name, rule_version. simpl.
    rewrite lower_nonempty.
    destruct (string_nonempty p) eqn:Hp.
    - now rewrite lower_idempotent.
    - destruct p; [reflexivity | discriminate]. }
  destruct (rule_fragments_by_protocol_name co
              (with_protocol r (Some p)) (with_protocol r (Some (lower p)))
              eq_refl eq_refl eq_refl eq_refl Hn) as (Hv & _ & Hf).
  split; [exact Hf|].
  unfold add_sg_rule. now rewrite Hv, Hf.
Qed.

(** X3: ports are read only for tcp, udp and icmp. For a rule whose
    protocol name is none of these (no protocol at all, another protocol,
    or icmpv6 after the rewrite), the fragments do not depend on
    from_port and to_port. *)
Theorem ports_ignored_for_other_protocols (co : collaborators) (r : sg_rule)
    (a b : Z) :
  pystr_in (rule_protocol_name co r) ["udp"; "tcp"] = false ->
  eq_str (rule_protocol_name co r) "icmp" = false ->
  rule_fragments co (with_ports r a b) = rule_fragments co r
  /\ rule_args co r
     = "-j ACCEPT"
         :: (if truthy (rule_protocol_name co r)
             then ["-p"; fmt_s (rule_protocol_name co r)] else []).
Proof.
  intros Hports Hicmp.
  assert (Hn : rule_protocol_name co (with_ports r a b)
               = rule_protocol_name co r) by reflexivity.
  assert (Ha : forall x, rule_protocol_name co x = rule_protocol_name co r ->
                 rule_args co x
                 = "-j ACCEPT"
                     :: (if truthy (rule_protocol_name co r)
                         then ["-p"; fmt_s (rule_protocol_name co r)] else [])).
  { intros x Hx. unfold rule_args. rewrite Hx, Hports, Hicmp.
    now destruct (truthy (rule_protocol_name co r)). }
  split; [|now apply Ha].
  unfold rule_fragments. rewrite (Ha _ Hn), (Ha r eq_refl). reflexivity.
Qed.

Lemma ports_ignored_for_other_protocols_witness :
  rule_fragments (Examples.policy [] [])
    (with_ports Scenarios.esp_from_v4 80 8080)
  = ["-j ACCEPT -p esp -s 192.0.2.0/24"].
Proof.
  destruct (ports_ignored_for_other_protocols (Examples.policy [] [])
              Scenarios.esp_from_v4 80 8080 eq_refl eq_refl) as [H _].
  exact H.
Defined.

(** X4: a tcp or udp rule with a CIDR and from_port equal to to_port
    compiles to one ACCEPT fragment with a single-port match on that port,
    not a range, in the list of the CIDR's version. *)
Theorem single_port_fragment (co : collaborators) (r : sg_rule) (c : string)
    (l4 l6 : list string) :
  rule_cidr r = Some c -> string_nonempty c = true ->
  pystr_in (rule_protocol_name co r) ["udp"; "tcp"] = true ->
  from_port r = to_port r ->
  let fragment :=
    join " " ["-j ACCEPT"; "-p"; fmt_s (rule_protocol_name co r);
              "--dport"; fmt_int (from_port r); "-s"; c] in
  rule_fragments co r = [fragment]
  /\ add_sg_rule co (l4, l6) r
     = if get_ip_version co c =? 4
       then (l4 ++ [fragment], l6) else (l4, l6 ++ [fragment]).
Proof.
  intros Hc Hne Hproto Hports fragment.
  assert (Htruthy : truthy (rule_protocol_name co r) = true).
  { destruct (rule_protocol_name co r) as [x|]; [|discriminate Hproto].
    simpl in Hproto. rewrite orb_false_r in Hproto.
    apply orb_true_iff in Hproto as [H|H]; apply String.eqb_eq in H;
      subst; reflexivity. }
  assert (Hfrag : rule_fragments co r = [fragment]).
  { unfold rule_fragments, rule_args. rewrite Hc, Hproto, Htruthy.
    simpl. rewrite Hne. unfold _build_tcp_udp_rule.
    rewrite <- Hports, Z.eqb_refl. reflexivity. }
  split; [exact Hfrag|].
  unfold add_sg_rule, rule_version. rewrite Hfrag, Hc. simpl. rewrite Hne.
  reflexivity.
Qed.

Lemma single_port_fragment_witness :
  rule_fragments (Examples.policy [] []) Scenarios.upper_tcp_from_v4
  = ["-j ACCEPT -p tcp --dport 443 -s 192.0.2.0/24"]
  /\ add_sg_rule (Examples.policy [] []) ([], []) Scenarios.upper_tcp_from_v4
     = (["-j ACCEPT -p tcp --dport 443 -s 192.0.2.0/24"], []).
Proof.
  exact (single_port_fragment (Examples.policy [] [])
           Scenarios.upper_tcp_from_v4 "192.0.2.0/24" [] []
           eq_refl eq_refl eq_refl eq_refl).
Defined.

(** ** Shape of the compiled lists *)

(** X5: the layout of the compiled lists. The IPv4 list is the prelude,
    one DHCP entry per subnet with a DHCP server, one same-network entry per
    subnet when that option is on, the fragments of the rules compiled for
    version 4 in the order the policy store returns them, and the fallback
    jump. The IPv6 list is the prelude, the IPv6 same-network entries when
    that option and [use_ipv6] are on, one router-advertisement entry per
    subnet when [use_ipv6] is on, the fragments of the other rules in store
    order, and the fallback jump. Nothing is sorted or deduplicated. *)
Theorem compiled_lists_layout (cf : conf) (co : collaborators)
    (inst : instance) (ni : network_info) :
  instance_rules cf co inst ni =
  (prelude ++ dhcp_entries ni
     ++ (if allow_same_net_traffic cf then same_network_v4 ni else [])
     ++ flat_map (rule_fragments co)
          (List.filter (targets_ipv4 co) (rules_of_instance co inst))
     ++ [fallback_jump],
   prelude
     ++ (if allow_same_net_traffic cf && use_ipv6 cf
         then same_network_v6 ni else [])
     ++ (if use_ipv6 cf then ra_entries ni else [])
     ++ flat_map (rule_fragments co)
          (List.filter (targets_ipv6_list co) (rules_of_instance co inst))
     ++ [fallback_jump])
  /\ (length (dhcp_entries ni) <= length (_handle_network_info_model ni))%nat
  /\ length (same_network_v4 ni) = length (_handle_network_info_model ni)
  /\ length (same_network_v6 ni) = length (_handle_network_info_model ni)
  /\ length (ra_entries ni) = length (_handle_network_info_model ni).
Proof.
  split; [apply instance_rules_closed|].
  unfold dhcp_entries, same_network_v4, same_network_v6, ra_entries.
  rewrite !List.length_map. repeat split.
  etransitivity; [apply List.filter_length_le|]. now rewrite List.length_map.
Qed.

(** X6: with no subnet and no security group, both compiled lists are the
    prelude followed by the fallback jump, whatever the configuration. *)
Theorem empty_policy_and_topology (cf : conf) (co : collaborators)
    (inst : instance) (ni : network_info) :
  _handle_network_info_model ni = [] ->
  security_group_get_by_instance co inst = [] ->
  instance_rules cf co inst ni
  = (["-m state --state INVALID -j DROP";
      "-m state --state ESTABLISHED,RELATED -j ACCEPT";
      "-j $provider"; "-j $sg-fallback"],
     ["-m state --state INVALID -j DROP";
      "-m state --state ESTABLISHED,RELATED -j ACCEPT";
      "-j $provider"; "-j $sg-fallback"]).
Proof.
  intros Hni Hsg. rewrite instance_rules_closed.
  unfold dhcp_entries, same_network_v4, same_network_v6, ra_entries,
    rules_of_instance.
  rewrite Hni, Hsg. simpl.
  now destruct (allow_same_net_traffic cf), (use_ipv6 cf).
Qed.

Lemma empty_policy_and_topology_witness :
  instance_rules Examples.ipv6_on Scenarios.no_groups Examples.inst1
    (ModelInfo [])
  = (prelude ++ [fallback_jump], prelude ++ [fallback_jump]).
Proof.
  exact (empty_policy_and_topology Examples.ipv6_on Scenarios.no_groups
           Examples.inst1 (ModelInfo []) eq_refl eq_refl).
Defined.

(** X7: a group-sourced rule yields as many fragments as its members have
    version-4 addresses; when no member has one, the rule contributes
    nothing and both lists stay as they were, even if the members have
    IPv6 addresses. *)
Theorem group_rule_without_ipv4_members (co : collaborators) (r : sg_rule)
    (g : grantee_group_t) (l4 l6 : list string) :
  truthy (rule_cidr r) = false -> grantee_group r = Some g ->
  length (rule_fragments co r)
  = length (flat_map (member_ips co 4) (instances_of_group g))
  /\ ((forall m, In m (instances_of_group g) -> member_ips co 4 m = []) ->
      rule_fragments co r = []
      /\ add_sg_rule co (l4, l6) r = (l4, l6)).
Proof.
  intros Hc Hg. rewrite (group_rule_fragments co r g Hc Hg).
  split; [apply List.length_map|].
  intros Hnone.
  assert (Hflat : flat_map (member_ips co 4) (instances_of_group g) = []).
  { induction (instances_of_group g) as [|m ms IH]; [reflexivity|].
    simpl. rewrite (Hnone m) by now left.
    apply IH. intros m' Hm'. apply Hnone. now right. }
  rewrite Hflat. split; [reflexivity|].
  rewrite (add_group_rule co r l4 l6 Hc), (group_rule_fragments co r g Hc Hg).
  rewrite Hflat. simpl. now rewrite app_nil_r.
Qed.

Lemma group_rule_without_ipv4_members_witness :
  instance_rules Examples.ipv6_on Scenarios.v6_only_policy Examples.inst1
    (LegacyInfo [])
  = (prelude ++ [fallback_jump], prelude ++ [fallback_jump])
  /\ rule_fragments Scenarios.v6_only_policy Scenarios.from_v6_only_group = [].
Proof.
  destruct (group_rule_without_ipv4_members Scenarios.v6_only_policy
              Scenarios.from_v6_only_group
              {| instances_of_group := [Scenarios.v6_only_member] |} [] []
              eq_refl eq_refl) as [_ Hnone].
  split; [reflexivity|].
  apply Hnone. intros m [<-|[]]. reflexivity.
Defined.

(** X8: DHCP entries go to the IPv4 list only and router-advertisement
    entries to the IPv6 list only, for every input; with
    [allow_same_net_traffic] off neither list has a same-network entry. *)
Theorem topology_entries_by_family (cf : conf) (co : collaborators)
    (inst : instance) (ni : network_info) :
  Forall (fun e => Provenance.source e <> Provenance.Dhcp)
         (snd (Provenance.instance_rules cf co inst ni))
  /\ Forall (fun e => Provenance.source e <> Provenance.RouterAdvertisement)
            (fst (Provenance.instance_rules cf co inst ni))
  /\ (allow_same_net_traffic cf = false ->
      Forall (fun e => Provenance.source e <> Provenance.SameNetwork)
             (fst (Provenance.instance_rules cf co inst ni)
                ++ snd (Provenance.instance_rules cf co inst ni))).
Proof.
  rewrite labelled_instance_rules_closed. cbn [fst snd].
  assert (Hlab : forall o o' l, o <> o' ->
            Forall (fun e => Provenance.source e <> o') (map (pair o) l)).
  { intros o o' l Hne. apply List.Forall_forall. intros e He.
    apply in_labelled in He as [-> _]. exact Hne. }
  assert (Hgrp : forall o rules, (forall r, o <> Provenance.GroupRule r) ->
            Forall (fun e => Provenance.source e <> o)
                   (flat_map (labelled_fragments co) rules)).
  { intros o rules Hne. apply List.Forall_forall. intros e He.
    apply in_labelled_fragments in He as (r & _ & -> & _).
    intros H. now apply (Hne r). }
  assert (Hfb : forall o, o <> Provenance.Fallback ->
            Forall (fun e => Provenance.source e <> o)
                   [(Provenance.Fallback, fallback_jump)]).
  { intros o Hne. constructor; [|constructor]. simpl. congruence. }
  assert (Happ : forall (P : Provenance.entry -> Prop) l1 l2,
            Forall P l1 -> Forall P l2 -> Forall P (l1 ++ l2)).
  { intros P l1 l2 H1 H2. apply List.Forall_app. now split. }
  split; [|split].
  - apply Happ; [apply Hlab; discriminate|].
    apply Happ.
    { destruct (_ && _); [apply Hlab; discriminate | constructor]. }
    apply Happ.
    { destruct (use_ipv6 cf); [apply Hlab; discriminate | constructor]. }
    apply Happ; [apply Hgrp; discriminate | apply Hfb; discriminate].
  - apply Happ; [apply Hlab; discriminate|].
    apply Happ; [apply Hlab; discriminate|].
    apply Happ.
    { destruct (allow_same_net_traffic cf);
        [apply Hlab; discriminate | constructor]. }
    apply Happ; [apply Hgrp; discriminate | apply Hfb; discriminate].
  - intros ->. cbn [andb]. apply Happ.
    + apply Happ; [apply Hlab; discriminate|].
      apply Happ; [apply Hlab; discriminate|].
      apply Happ; [constructor|].
      apply Happ; [apply Hgrp; discriminate | apply Hfb; discriminate].
    + apply Happ; [apply Hlab; discriminate|].
      apply Happ; [constructor|].
      apply Happ.
      { destruct (use_ipv6 cf); [apply Hlab; discriminate | constructor]. }
      apply Happ; [apply Hgrp; discriminate | apply Hfb; discriminate].
Qed.

Lemma topology_entries_by_family_witness :
  Forall (fun e => Provenance.source e <> Provenance.SameNetwork)
         (fst (Provenance.instance_rules Scenarios.same_net_off
                 (Examples.policy [Examples.tcp80_from_v6] [])
                 Examples.inst1 Examples.topology)
            ++ snd (Provenance.instance_rules Scenarios.same_net_off
                      (Examples.policy [Examples.tcp80_from_v6] [])
                      Examples.inst1 Examples.topology)).
Proof.
  apply (proj2 (proj2 (topology_entries_by_family Scenarios.same_net_off
                         (Examples.policy [Examples.tcp80_from_v6] [])
                         Examples.inst1 Examples.topology))).
  reflexivity.
Defined.

(** ** Provider rules, further *)

(** X9: every provider rule the store returns compiles to exactly one
    fragment, in exactly one of the two lists: the list lengths add up to
    the number of rules, whatever their protocols and ports. *)
Theorem provider_rules_one_fragment_each (co : collaborators) :
  (length (fst (_provider_rules co)) + length (snd (_provider_rules co))
   = length (provider_fw_rule_get_all co))%nat
  /\ (forall p, In p (provider_fw_rule_get_all co) ->
        In (provider_rule_fragment co p)
           (if provider_rule_version co p =? 4
            then fst (_provider_rules co) else snd (_provider_rules co))).
Proof.
  rewrite _provider_rules_closed. cbn [fst snd]. split.
  - rewrite !List.length_map. apply List.filter_length.
  - intros p Hp. unfold provider_targets_ipv4.
    destruct (provider_rule_version co p =? 4) eqn:Hv;
      apply in_map, filter_In; split; try assumption.
    unfold provider_targets_ipv4. now rewrite Hv.
Qed.

Lemma provider_rules_one_fragment_each_witness :
  In "-p tcp -s 203.0.113.0/24 -m multiport --dports 1:1024 -j DROP"
     (fst (_provider_rules
             (Examples.policy []
                [Examples.provider_echo_v6; Examples.provider_tcp]))).
Proof.
  apply (proj2 (provider_rules_one_fragment_each
                  (Examples.policy []
                     [Examples.provider_echo_v6; Examples.provider_tcp]))
           Examples.provider_tcp).
  right; left; reflexivity.
Defined.

(** X10: the provider compiler compares the protocol as it is stored,
    without lower-casing. For a protocol that is not exactly udp, tcp or
    icmp (for instance TCP in upper case) the ports are not read and the
    fragment is [-p <protocol> -s <cidr> -j DROP]. *)
Theorem provider_rule_other_protocol (co : collaborators) (p : provider_rule)
    (a b : Z) :
  pystr_in (Some (prule_protocol p)) ["udp"; "tcp"] = false ->
  String.eqb (prule_protocol p) "icmp" = false ->
  provider_rule_args co p
  = ["-p"; prule_protocol p; "-s"; prule_cidr p; "-j DROP"]
  /\ provider_rule_fragment co (provider_with_ports p a b)
     = provider_rule_fragment co p.
Proof.
  intros Hports Hicmp.
  assert (Hargs : forall q, prule_protocol q = prule_protocol p ->
            provider_rule_args co q
            = ["-p"; prule_protocol p; "-s"; prule_cidr q; "-j DROP"]).
  { intros q Hq. unfold provider_rule_args. rewrite Hq, Hicmp, andb_false_r.
    now rewrite Hports, Hicmp. }
  split; [now apply Hargs|].
  unfold provider_rule_fragment.
  now rewrite (Hargs (provider_with_ports p a b) eq_refl), (Hargs p eq_refl).
Qed.

Lemma provider_rule_other_protocol_witness :
  provider_rule_fragment (Examples.policy [] []) Scenarios.provider_upper_tcp
  = "-p TCP -s 203.0.113.0/24 -j DROP".
Proof.
  unfold provider_rule_fragment.
  now rewrite (proj1 (provider_rule_other_protocol (Examples.policy [] [])
                        Scenarios.provider_upper_tcp 0 0 eq_refl eq_refl)).
Defined.

(** ** The two dictionaries *)

Lemma unfilter_instance_untracked (cf : conf) (inst : instance)
    (ni : network_info) (d : driver) :
  instances d !! instance_id inst = None ->
  unfilter_instance cf inst ni d
  = (Returned tt, d,
     [LogInfo "Attempted to unfilter instance which is not filtered"]).
Proof.
  intros Hnone. unfold unfilter_instance, mbind, M_bind, instances_pop.
  rewrite Hnone. simpl. rewrite (delete_id _ _ Hnone). now destruct d.
Qed.

Lemma unfilter_instance_tracked (cf : conf) (inst : instance)
    (ni : network_info) (d : driver) :
  is_Some (instances d !! instance_id inst) ->
  is_Some (network_infos d !! instance_id inst) ->
  unfilter_instance cf inst ni d
  = (Returned tt, untrack inst d,
     [RemoveChain Ipv4Filter (_instance_chain_name inst)]
       ++ (if use_ipv6 cf
           then [RemoveChain Ipv6Filter (_instance_chain_name inst)] else [])
       ++ [Apply]).
Proof.
  intros [i Hi] [n Hn]. eapply runs_trace.
  - unfold unfilter_instance.
    eapply runs_bind; [reflexivity|]. rewrite Hi.
    eapply runs_bind.
    + unfold runs, network_infos_pop. simpl. rewrite Hn. reflexivity.
    + eapply runs_bind; [apply runs_remove_filters_for_instance|].
      apply runs_emit.
  - destruct (use_ipv6 cf); reflexivity.
Qed.

Lemma track_consistent (inst : instance) (ni : network_info) (d : driver) :
  tracked_consistent d -> tracked_consistent (track inst ni d).
Proof.
  intros [Hid Hdom]. split; simpl.
  - intros k i Hi. apply lookup_insert_Some in Hi as [[<- <-]|[_ Hi]].
    + reflexivity.
    + now apply Hid.
  - intros k. rewrite !lookup_insert_is_Some'. now rewrite Hdom.
Qed.

Lemma untrack_consistent (inst : instance) (d : driver) :
  tracked_consistent d -> tracked_consistent (untrack inst d).
Proof.
  intros [Hid Hdom]. split; simpl.
  - intros k i Hi. apply lookup_delete_Some in Hi as [_ Hi]. now apply Hid.
  - intros k. rewrite !lookup_delete_is_Some. now rewrite Hdom.
Qed.

Lemma untrack_untracked (inst : instance) (d : driver) :
  instances d !! instance_id inst = None ->
  network_infos d !! instance_id inst = None ->
  untrack inst d = d.
Proof.
  intros Hi Hn. unfold untrack. rewrite (delete_id _ _ Hi), (delete_id _ _ Hn).
  now destruct d.
Qed.

Lemma consistent_untracked (d : driver) (k : Z) :
  tracked_consistent d -> instances d !! k = None ->
  network_infos d !! k = None.
Proof.
  intros [_ Hdom] Hi. apply eq_None_not_Some. intros Hn.
  apply Hdom in Hn. rewrite Hi in Hn. now destruct Hn.
Qed.

(** X11: the driver keeps its two dictionaries in step. After [__init__]
    they agree (both empty); [prepare_instance_filter] returns with the
    instance and its topology recorded under the instance's id and they
    still agree; [unfilter_instance] then always returns, with the id
    dropped from both, and they still agree. *)
Theorem dictionaries_stay_consistent (cf : conf) (co : collaborators)
    (inst : instance) (ni : network_info) (d : driver) :
  tracked_consistent (snd (fst (init d)))
  /\ (tracked_consistent d ->
      (exists t, prepare_instance_filter cf co inst ni d
                 = (Returned tt, track inst ni d, t))
      /\ tracked_consistent (track inst ni d))
  /\ (tracked_consistent d ->
      (exists t, unfilter_instance cf inst ni d
                 = (Returned tt, untrack inst d, t))
      /\ tracked_consistent (untrack inst d)
      /\ instances (untrack inst d) !! instance_id inst = None
      /\ network_infos (untrack inst d) !! instance_id inst = None).
Proof.
  split; [|split].
  - split; simpl.
    + intros k i Hi. now rewrite lookup_empty in Hi.
    + intros k. rewrite !lookup_empty. split; intros [x Hx]; discriminate Hx.
  - intros Hd. split; [|now apply track_consistent].
    eexists. exact (prepare_instance_filter_tracks cf co inst ni d).
  - intros Hd. split; [|split; [now apply untrack_consistent|]].
    + destruct (instances d !! instance_id inst) as [i|] eqn:Hi.
      * eexists. apply unfilter_instance_tracked.
        -- rewrite Hi. now eexists.
        -- apply (proj2 Hd). rewrite Hi. now eexists.
      * eexists.
        rewrite (untrack_untracked inst d Hi (consistent_untracked d _ Hd Hi)).
        now apply unfilter_instance_untracked.
    + simpl. split; apply lookup_delete_eq.
Qed.

Lemma dictionaries_stay_consistent_witness :
  tracked_consistent (track Examples.inst1 Examples.topology Examples.fresh)
  /\ tracked_consistent (untrack Examples.inst1 Examples.tracking_inst1).
Proof.
  assert (Hfresh : tracked_consistent Examples.fresh)
    by exact (proj1 (dictionaries_stay_consistent Examples.ipv6_on
                       (Examples.policy [] []) Examples.inst1
                       Examples.topology Examples.fresh)).
  assert (Htrack : tracked_consistent
                     (track Examples.inst1 Examples.topology Examples.fresh))
    by exact (proj2 (proj1 (proj2 (dictionaries_stay_consistent
                       Examples.ipv6_on (Examples.policy [] [])
                       Examples.inst1 Examples.topology Examples.fresh))
                       Hfresh)).
  split; [exact Htrack|].
  exact (proj1 (proj2 (proj2 (proj2 (dictionaries_stay_consistent
                  Examples.ipv6_on (Examples.policy [] []) Examples.inst1
                  Examples.topology
                  (track Examples.inst1 Examples.topology Examples.fresh)))
                  Htrack))).
Defined.

Lemma fresh_consistent : tracked_consistent Examples.fresh.
Proof.
  split; simpl.
  - intros k i Hi. now rewrite lookup_empty in Hi.
  - intros k. rewrite !lookup_empty. split; intros [x Hx]; discriminate Hx.
Qed.

Lemma tracking_inst1_consistent : tracked_consistent Examples.tracking_inst1.
Proof.
  exact (track_consistent Examples.inst1 Examples.topology Examples.fresh
           fresh_consistent).
Qed.

(** X12: unfiltering twice is harmless. On a driver whose dictionaries
    agree, a second [unfilter_instance] of the same instance changes
    nothing more and issues only the log line: no second chain removal and
    no second apply. *)
Theorem unfilter_twice (cf : conf) (inst : instance) (ni ni' : network_info)
    (d : driver) :
  tracked_consistent d ->
  exists t,
    unfilter_instance cf inst ni d = (Returned tt, untrack inst d, t)
    /\ (unfilter_instance cf inst ni ;; unfilter_instance cf inst ni') d
       = (Returned tt, untrack inst d,
          t ++ [LogInfo "Attempted to unfilter instance which is not filtered"]).
Proof.
  intros Hd.
  assert (Hfirst : exists t, unfilter_instance cf inst ni d
                             = (Returned tt, untrack inst d, t)).
  { destruct (instances d !! instance_id inst) as [i|] eqn:Hi.
    - eexists. apply unfilter_instance_tracked.
      + rewrite Hi. now eexists.
      + apply (proj2 Hd). rewrite Hi. now eexists.
    - eexists.
      rewrite (untrack_untracked inst d Hi (consistent_untracked d _ Hd Hi)).
      now apply unfilter_instance_untracked. }
  destruct Hfirst as [t Ht]. exists t. split; [exact Ht|].
  apply (runs_bind _ _ d (untrack inst d) (untrack inst d) tt tt); [exact Ht|].
  apply unfilter_instance_untracked. simpl. apply lookup_delete_eq.
Qed.

Lemma unfilter_twice_witness :
  (unfilter_instance Examples.ipv6_off Examples.inst1 Examples.topology ;;
   unfilter_instance Examples.ipv6_off Examples.inst1 Examples.topology)
    Examples.tracking_inst1
  = (Returned tt, untrack Examples.inst1 Examples.tracking_inst1,
     [RemoveChain Ipv4Filter "inst-1"; Apply;
      LogInfo "Attempted to unfilter instance which is not filtered"]).
Proof.
  destruct (unfilter_twice Examples.ipv6_off Examples.inst1 Examples.topology
              Examples.topology Examples.tracking_inst1
              tracking_inst1_consistent)
    as (t & Hone & Htwo).
  assert (Ht : t = [RemoveChain Ipv4Filter "inst-1"; Apply]).
  { assert (H := Hone). vm_compute in H. now injection H. }
  rewrite Ht in Htwo. exact Htwo.
Defined.

(** X13: preparing an instance that is not tracked and then unfiltering it
    gives the driver's dictionaries back exactly as they were; the calls
    are those of the preparation followed by the removal of the instance's
    chain and an apply. *)
Theorem prepare_then_unfilter_restores (cf : conf) (co : collaborators)
    (inst : instance) (ni ni' : network_info) (d : driver) :
  instances d !! instance_id inst = None ->
  network_infos d !! instance_id inst = None ->
  (prepare_instance_filter cf co inst ni ;; unfilter_instance cf inst ni') d
  = (Returned tt, d,
     (add_filters_trace cf inst (LegacyInfo (_handle_network_info_model ni))
        (instance_rules cf co inst
           (LegacyInfo (_handle_network_info_model ni)))
        ++ provider_refresh_trace cf (_provider_rules co) ++ [Apply])
       ++ [RemoveChain Ipv4Filter (_instance_chain_name inst)]
       ++ (if use_ipv6 cf
           then [RemoveChain Ipv6Filter (_instance_chain_name inst)] else [])
       ++ [Apply]).
Proof.
  intros Hi Hn.
  assert (Hback : untrack inst (track inst ni d) = d).
  { unfold untrack, track. simpl.
    rewrite (delete_insert_id _ _ _ Hi), (delete_insert_id _ _ _ Hn).
    now destruct d. }
  rewrite <- Hback at 2.
  eapply runs_bind; [exact (prepare_instance_filter_tracks cf co inst ni d)|].
  apply unfilter_instance_tracked; simpl; rewrite lookup_insert_eq; now eexists.
Qed.

Lemma prepare_then_unfilter_restores_witness :
  snd (fst ((prepare_instance_filter Examples.ipv6_on
               (Examples.policy [Examples.ssh_from_group] [])
               Scenarios.inst2 Examples.topology ;;
             unfilter_instance Examples.ipv6_on Scenarios.inst2
               Examples.topology) Examples.tracking_inst1))
  = Examples.tracking_inst1.
Proof.
  now rewrite (prepare_then_unfilter_restores Examples.ipv6_on
                 (Examples.policy [Examples.ssh_from_group] [])
                 Scenarios.inst2 Examples.topology Examples.topology
                 Examples.tracking_inst1 eq_refl eq_refl).
Defined.

(** ** Missing topology *)

Lemma unfilter_instance_without_topology (cf : conf) (inst : instance)
    (ni : network_info) (d : driver) :
  network_infos d !! instance_id inst = None ->
  is_Some (instances d !! instance_id inst) ->
  unfilter_instance cf inst ni d
  = (Raised (KeyError (instance_id inst)),
     {| instances := delete (instance_id inst) (instances d);
        network_infos := network_infos d;
        basically_filtered := basically_filtered d |},
     []).
Proof.
  intros Hn [i Hi].
  unfold unfilter_instance, mbind, M_bind, instances_pop, network_infos_pop.
  rewrite Hi. simpl. now rewrite Hn.
Qed.

(** X14: what happens when [network_infos] has no entry for the instance.
    [do_refresh_instance_rules] and [refresh_instance_security_rules] raise
    KeyError before any call to the iptables manager, and the driver is
    unchanged; no apply is issued. [_inner_do_refresh_rules] raises only
    after it has removed the instance's chain, which it does not add back;
    the lock is released. [unfilter_instance] of an instance that is still
    in [instances] raises after it has dropped the instance from
    [instances], without removing the chain. *)
Theorem missing_topology_raises (cf : conf) (co : collaborators)
    (inst : instance) (ni : network_info) (l4 l6 : list string) (d : driver) :
  network_infos d !! instance_id inst = None ->
  do_refresh_instance_rules cf co inst d
  = (Raised (KeyError (instance_id inst)), d, [])
  /\ refresh_instance_security_rules cf co inst d
     = (Raised (KeyError (instance_id inst)), d, [])
  /\ _inner_do_refresh_rules cf inst l4 l6 d
     = (Raised (KeyError (instance_id inst)), d,
        [LockAcquire "iptables";
         RemoveChain Ipv4Filter (_instance_chain_name inst)]
          ++ (if use_ipv6 cf
              then [RemoveChain Ipv6Filter (_instance_chain_name inst)]
              else [])
          ++ [LockRelease "iptables"])
  /\ (is_Some (instances d !! instance_id inst) ->
      unfilter_instance cf inst ni d
      = (Raised (KeyError (instance_id inst)),
         {| instances := delete (instance_id inst) (instances d);
            network_infos := network_infos d;
            basically_filtered := basically_filtered d |},
         [])).
Proof.
  intros Hn.
  assert (Hrefresh : do_refresh_instance_rules cf co inst d
                     = (Raised (KeyError (instance_id inst)), d, [])).
  { unfold do_refresh_instance_rules, mbind, M_bind, network_infos_get.
    now rewrite Hn. }
  split; [exact Hrefresh|]. split; [|split].
  - unfold refresh_instance_security_rules, mbind, M_bind.
    now rewrite Hrefresh.
  - unfold _inner_do_refresh_rules, synchronized, mbind, M_bind.
    rewrite (runs_remove_filters_for_instance cf inst d).
    unfold add_filters_for_instance, mbind, M_bind, network_infos_get.
    rewrite Hn. destruct (use_ipv6 cf); reflexivity.
  - now apply unfilter_instance_without_topology.
Qed.

Lemma missing_topology_raises_witness :
  refresh_instance_security_rules Examples.ipv6_on (Examples.policy [] [])
    Scenarios.inst2 Examples.tracking_inst1
  = (Raised (KeyError 2), Examples.tracking_inst1, [])
  /\ unfilter_instance Examples.ipv6_on Examples.inst1 Examples.topology
       Scenarios.instance_without_topology
     = (Raised (KeyError 1),
        {| instances := delete 1 {[ 1 := Examples.inst1 ]};
           network_infos := ∅;
           basically_filtered := false |},
        []).
Proof.
  split.
  - exact (proj1 (proj2 (missing_topology_raises Examples.ipv6_on
                           (Examples.policy [] []) Scenarios.inst2
                           Examples.topology [] [] Examples.tracking_inst1
                           eq_refl))).
  - apply (proj2 (proj2 (proj2 (missing_topology_raises Examples.ipv6_on
                           (Examples.policy [] []) Examples.inst1
                           Examples.topology [] []
                           Scenarios.instance_without_topology eq_refl)))).
    exists Examples.inst1. reflexivity.
Defined.

(** ** Other instances *)

(** X15: preparing or unfiltering one instance leaves the entries of every
    other id untouched in both dictionaries, whether the call returns or
    raises; and unfiltering an instance issues no call that names the chain
    of an instance with another id. *)
Theorem other_instances_untouched (cf : conf) (co : collaborators)
    (inst other : instance) (ni : network_info) (d : driver) :
  instance_id other <> instance_id inst ->
  let after_prepare := snd (fst (prepare_instance_filter cf co inst ni d)) in
  let after_unfilter := snd (fst (unfilter_instance cf inst ni d)) in
  instances after_prepare !! instance_id other
    = instances d !! instance_id other
  /\ network_infos after_prepare !! instance_id other
     = network_infos d !! instance_id other
  /\ instances after_unfilter !! instance_id other
     = instances d !! instance_id other
  /\ network_infos after_unfilter !! instance_id other
     = network_infos d !! instance_id other
  /\ Forall (fun e =>
               e <> RemoveChain Ipv4Filter (_instance_chain_name other)
               /\ e <> RemoveChain Ipv6Filter (_instance_chain_name other))
            (snd (unfilter_instance cf inst ni d)).
Proof.
  intros Hne after_prepare after_unfilter.
  assert (Hne' : instance_id inst <> instance_id other) by congruence.
  assert (Hname : _instance_chain_name inst <> _instance_chain_name other).
  { unfold _instance_chain_name. intros Heq.
    apply (String.app_inj "inst-") in Heq.
    pose proof (parse_fmt_int (instance_id inst)) as H.
    rewrite Heq, parse_fmt_int in H. now injection H. }
  subst after_prepare after_unfilter.
  rewrite (prepare_instance_filter_tracks cf co inst ni d). cbn [fst snd].
  split; [simpl; now apply lookup_insert_ne|].
  split; [simpl; now apply lookup_insert_ne|].
  destruct (instances d !! instance_id inst) as [i|] eqn:Hi.
  - destruct (network_infos d !! instance_id inst) as [n|] eqn:Hn.
    + rewrite unfilter_instance_tracked
        by (rewrite ?Hi, ?Hn; now eexists).
      cbn [fst snd]. simpl.
      split; [now apply lookup_delete_ne|].
      split; [now apply lookup_delete_ne|].
      destruct (use_ipv6 cf); repeat constructor; congruence.
    + rewrite (unfilter_instance_without_topology cf inst ni d Hn)
        by (rewrite Hi; now eexists).
      cbn [fst snd]. simpl.
      split; [now apply lookup_delete_ne|].
      repeat split. constructor.
  - rewrite (unfilter_instance_untracked cf inst ni d Hi). cbn [fst snd].
    repeat split. repeat constructor; discriminate.
Qed.

Lemma other_instances_untouched_witness :
  instances (snd (fst (unfilter_instance Examples.ipv6_on Scenarios.inst2
                         Examples.topology Examples.tracking_inst1)))
    !! 1
  = Some Examples.inst1.
Proof.
  destruct (other_instances_untouched Examples.ipv6_on
              (Examples.policy [] []) Scenarios.inst2 Examples.inst1
              Examples.topology Examples.tracking_inst1)
    as (_ & _ & H & _).
  - simpl. lia.
  - exact H.
Defined.

(** ** Refreshing every tracked instance *)

Lemma runs_for_each {A} (body : A -> M unit) (tr : A -> list event)
    (l : list A) (d : driver) :
  (forall x, In x l -> runs (body x) d tt d (tr x)) ->
  runs (for_each l body) d tt d (flat_map tr l).
Proof.
  induction l as [|x l IH]; intros Hbody; [reflexivity|].
  simpl. eapply runs_bind.
  - apply Hbody. now left.
  - apply IH. intros y Hy. apply Hbody. now right.
Qed.

Lemma in_instances_values (d : driver) (i : instance) :
  tracked_consistent d ->
  In i (instances_values d) <-> instances d !! instance_id i = Some i.
Proof.
  intros [Hid _]. unfold instances_values. rewrite in_map_iff. split.
  - intros ([k i'] & <- & Hin). simpl.
    apply list_elem_of_In, elem_of_map_to_list in Hin.
    now rewrite (Hid k i' Hin).
  - intros Hi. exists (instance_id i, i). split; [reflexivity|].
    now apply list_elem_of_In, elem_of_map_to_list.
Qed.

Lemma runs_do_refresh_security_group_rules (cf : conf) (co : collaborators)
    (sg : security_group) (d : driver) :
  tracked_consistent d ->
  runs (do_refresh_security_group_rules cf co sg) d tt d
       (flat_map (refresh_one_trace cf co d) (instances_values d)).
Proof.
  intros Hd. unfold runs, do_refresh_security_group_rules.
  apply (runs_for_each (refresh_one cf co) (refresh_one_trace cf co d)).
  intros i Hi. apply (in_instances_values d i Hd) in Hi.
  assert (Hn : is_Some (network_infos d !! instance_id i))
    by (apply (proj2 Hd); rewrite Hi; now eexists).
  destruct Hn as [n Hn]. unfold refresh_one_trace. rewrite Hn.
  exact (runs_do_refresh_instance_rules cf co i n d Hn).
Qed.



(** ** Where the lock is held *)

Lemma mutations_locked_body (body t : list event) :
  Forall (fun e => chain_mutation e = true) body ->
  mutations_locked true (body ++ t) = mutations_locked true t.
Proof.
  induction 1 as [|e body He _ IH]; [reflexivity|].
  destruct e; try discriminate He; simpl; exact IH.
Qed.

Lemma chain_mutation_add_rules (tb : table) (chain : string)
    (l : list string) :
  Forall (fun e => chain_mutation e = true) (map (AddRule tb chain) l).
Proof. induction l; constructor; [reflexivity | assumption]. Qed.

Lemma chain_mutation_app (l1 l2 : list event) :
  Forall (fun e => chain_mutation e = true) l1 ->
  Forall (fun e => chain_mutation e = true) l2 ->
  Forall (fun e => chain_mutation e = true) (l1 ++ l2).
Proof. intros H1 H2. apply List.Forall_app. now split. Qed.

Lemma chain_mutation_add_filters (cf : conf) (inst : instance)
    (ni : network_info) (lists : rule_lists) :
  Forall (fun e => chain_mutation e = true)
         (add_filters_trace cf inst ni lists).
Proof.
  unfold add_filters_trace.
  destruct (use_ipv6 cf);
    repeat first [ apply chain_mutation_app
                 | apply chain_mutation_add_rules
                 | (constructor; [reflexivity|])
                 | constructor ].
Qed.

Lemma refresh_trace_locked (cf : conf) (inst : instance) (ni : network_info)
    (lists : rule_lists) (rest : list event) :
  mutations_locked false (refresh_trace cf inst ni lists ++ rest)
  = mutations_locked false rest.
Proof.
  unfold refresh_trace. rewrite <- !app_assoc.
  cbn [app mutations_locked chain_mutation negb orb andb].
  rewrite mutations_locked_body
    by (destruct (use_ipv6 cf); repeat constructor).
  now rewrite mutations_locked_body by apply chain_mutation_add_filters.
Qed.

Lemma provider_refresh_trace_locked (cf : conf) (lists : rule_lists) :
  mutations_locked false (provider_refresh_trace cf lists) = true.
Proof.
  unfold provider_refresh_trace.
  destruct (use_ipv6 cf);
    cbn [app mutations_locked chain_mutation negb orb andb];
    rewrite ?mutations_locked_body by apply chain_mutation_add_rules;
    reflexivity.
Qed.

(** X17: which calls are made with the iptables lock held. In an instance
    refresh, a group refresh and a provider refresh, every call that adds,
    removes or empties a chain or adds a rule is made between taking and
    releasing the lock. [prepare_instance_filter] adds the instance's chain
    and rules before any lock is taken, and [unfilter_instance] removes the
    chain of a tracked instance without taking it. *)
Theorem lock_held_during_refresh_only (cf : conf) (co : collaborators)
    (inst : instance) (ni : network_info) (sg : security_group) (d : driver) :
  mutations_locked false (snd (refresh_provider_fw_rules cf co d)) = true
  /\ (is_Some (network_infos d !! instance_id inst) ->
      mutations_locked false
        (snd (refresh_instance_security_rules cf co inst d)) = true)
  /\ (tracked_consistent d ->
      mutations_locked false
        (snd (refresh_security_group_rules cf co sg d)) = true)
  /\ mutations_locked false (snd (prepare_instance_filter cf co inst ni d))
     = false
  /\ (is_Some (instances d !! instance_id inst) ->
      is_Some (network_infos d !! instance_id inst) ->
      mutations_locked false (snd (unfilter_instance cf inst ni d)) = false).
Proof.
  split; [|split; [|split; [|split]]].
  - rewrite (runs_refresh_provider_fw_rules cf co d). cbn [snd].
    apply provider_refresh_trace_locked.
  - intros [n Hn].
    assert (Hrun : runs (refresh_instance_security_rules cf co inst) d tt d
                     (refresh_trace cf inst n (instance_rules cf co inst n)
                        ++ [Apply])).
    { unfold refresh_instance_security_rules.
      eapply runs_bind;
        [exact (runs_do_refresh_instance_rules cf co inst n d Hn)|].
      apply runs_emit. }
    rewrite Hrun. cbn [snd]. now rewrite refresh_trace_locked.
  - intros Hd.
    assert (Hrun : runs (refresh_security_group_rules cf co sg) d tt d
                     (flat_map (refresh_one_trace cf co d) (instances_values d)
                        ++ [Apply])).
    { unfold refresh_security_group_rules.
      eapply runs_bind;
        [exact (runs_do_refresh_security_group_rules cf co sg d Hd)|].
      apply runs_emit. }
    rewrite Hrun. cbn [snd]. clear Hrun.
    induction (instances_values d) as [|i l IH]; [reflexivity|].
    simpl. rewrite <- app_assoc. unfold refresh_one_trace at 1.
    destruct (network_infos d !! instance_id i); [|exact IH].
    now rewrite refresh_trace_locked.
  - rewrite (prepare_instance_filter_tracks cf co inst ni d). cbn [snd].
    unfold add_filters_trace. now destruct (use_ipv6 cf).
  - intros Hi Hn. rewrite (unfilter_instance_tracked cf inst ni d Hi Hn).
    now destruct (use_ipv6 cf).
Qed.

Lemma lock_held_during_refresh_only_witness :
  mutations_locked false
    (snd (refresh_instance_security_rules Examples.ipv6_on
            (Examples.policy [Examples.tcp80_from_v6] [])
            Examples.inst1 Examples.tracking_inst1)) = true
  /\ mutations_locked false
       (snd (refresh_security_group_rules Examples.ipv6_on
               (Examples.policy [Examples.tcp80_from_v6] [])
               {| security_group_id := 1 |} Examples.tracking_inst1)) = true
  /\ mutations_locked false
       (snd (unfilter_instance Examples.ipv6_on Examples.inst1
               Examples.topology Examples.tracking_inst1)) = false.
Proof.
  destruct (lock_held_during_refresh_only Examples.ipv6_on
              (Examples.policy [Examples.tcp80_from_v6] [])
              Examples.inst1 Examples.topology {| security_group_id := 1 |}
              Examples.tracking_inst1) as (_ & Hone & Hall & _ & Hun).
  refine (conj (Hone _) (conj (Hall tracking_inst1_consistent) (Hun _ _)));
    eexists; reflexivity.
Defined.

(** ** The IPv6 table when IPv6 is disabled *)

Lemma no_ipv6_add_rules (chain : string) (l : list string) :
  Forall (fun e => on_ipv6_table e = false) (map (AddRule Ipv4Filter chain) l).
Proof. induction l; constructor; [reflexivity | assumption]. Qed.

Lemma no_ipv6_app (l1 l2 : list event) :
  Forall (fun e => on_ipv6_table e = false) l1 ->
  Forall (fun e => on_ipv6_table e = false) l2 ->
  Forall (fun e => on_ipv6_table e = false) (l1 ++ l2).
Proof. intros H1 H2. apply List.Forall_app. now split. Qed.

Ltac no_ipv6 :=
  repeat first [ apply no_ipv6_app
               | apply no_ipv6_add_rules
               | (constructor; [reflexivity|])
               | constructor ].

Lemma no_ipv6_add_filters (cf : conf) (inst : instance) (ni : network_info)
    (lists : rule_lists) :
  use_ipv6 cf = false ->
  Forall (fun e => on_ipv6_table e = false) (add_filters_trace cf inst ni lists).
Proof. intros Hoff. unfold add_filters_trace. rewrite Hoff. no_ipv6. Qed.

Lemma no_ipv6_refresh (cf : conf) (inst : instance) (ni : network_info)
    (lists : rule_lists) :
  use_ipv6 cf = false ->
  Forall (fun e => on_ipv6_table e = false) (refresh_trace cf inst ni lists).
Proof.
  intros Hoff. unfold refresh_trace. rewrite Hoff.
  apply no_ipv6_app; [no_ipv6|].
  apply no_ipv6_app; [constructor|].
  apply no_ipv6_app; [now apply no_ipv6_add_filters | no_ipv6].
Qed.

Lemma no_ipv6_provider_refresh (cf : conf) (lists : rule_lists) :
  use_ipv6 cf = false ->
  Forall (fun e => on_ipv6_table e = false) (provider_refresh_trace cf lists).
Proof.
  intros Hoff. unfold provider_refresh_trace. rewrite Hoff. no_ipv6.
Qed.

(** X18: with [use_ipv6] off the driver leaves the IPv6 filter table
    alone after construction: preparing, unfiltering, an instance refresh,
    a group refresh and a provider refresh issue no call on it, even when
    the compiled IPv6 list holds group fragments. [__init__] itself does
    create the fallback chain in the IPv6 table, whatever the option. *)
Theorem ipv6_table_untouched_when_disabled (cf : conf) (co : collaborators)
    (inst : instance) (ni : network_info) (sg : security_group) (d : driver) :
  use_ipv6 cf = false ->
  Forall (fun e => on_ipv6_table e = false)
         (snd (prepare_instance_filter cf co inst ni d))
  /\ Forall (fun e => on_ipv6_table e = false)
            (snd (unfilter_instance cf inst ni d))
  /\ Forall (fun e => on_ipv6_table e = false)
            (snd (refresh_instance_security_rules cf co inst d))
  /\ Forall (fun e => on_ipv6_table e = false)
            (snd (refresh_provider_fw_rules cf co d))
  /\ (tracked_consistent d ->
      Forall (fun e => on_ipv6_table e = false)
             (snd (refresh_security_group_rules cf co sg d)))
  /\ existsb on_ipv6_table (snd (init d)) = true.
Proof.
  intros Hoff. split; [|split; [|split; [|split; [|split]]]].
  - rewrite (prepare_instance_filter_tracks cf co inst ni d). cbn [snd].
    apply no_ipv6_app; [now apply no_ipv6_add_filters|].
    apply no_ipv6_app; [now apply no_ipv6_provider_refresh | no_ipv6].
  - destruct (instances d !! instance_id inst) as [i|] eqn:Hi.
    + destruct (network_infos d !! instance_id inst) as [n|] eqn:Hn.
      * rewrite unfilter_instance_tracked by (rewrite ?Hi, ?Hn; now eexists).
        cbn [snd]. rewrite Hoff. no_ipv6.
      * rewrite (unfilter_instance_without_topology cf inst ni d Hn)
          by (rewrite Hi; now eexists).
        constructor.
    + rewrite (unfilter_instance_untracked cf inst ni d Hi). no_ipv6.
  - unfold refresh_instance_security_rules.
    destruct (network_infos d !! instance_id inst) as [n|] eqn:Hn.
    + assert (Hrun : runs (do_refresh_instance_rules cf co inst ;; emit Apply)
                       d tt d
                       (refresh_trace cf inst n (instance_rules cf co inst n)
                          ++ [Apply])).
      { eapply runs_bind;
          [exact (runs_do_refresh_instance_rules cf co inst n d Hn)|].
        apply runs_emit. }
      rewrite Hrun. cbn [snd].
      apply no_ipv6_app; [now apply no_ipv6_refresh | no_ipv6].
    + unfold do_refresh_instance_rules, mbind, M_bind, network_infos_get.
      rewrite Hn. constructor.
  - rewrite (runs_refresh_provider_fw_rules cf co d). cbn [snd].
    now apply no_ipv6_provider_refresh.
  - intros Hd.
    assert (Hrun : runs (refresh_security_group_rules cf co sg) d tt d
                     (flat_map (refresh_one_trace cf co d) (instances_values d)
                        ++ [Apply])).
    { unfold refresh_security_group_rules.
      eapply runs_bind;
        [exact (runs_do_refresh_security_group_rules cf co sg d Hd)|].
      apply runs_emit. }
    rewrite Hrun. cbn [snd]. clear Hrun.
    apply no_ipv6_app; [|no_ipv6].
    induction (instances_values d) as [|i l IH]; [constructor|].
    simpl. apply no_ipv6_app; [|exact IH].
    unfold refresh_one_trace.
    destruct (network_infos d !! instance_id i);
      [now apply no_ipv6_refresh | constructor].
  - reflexivity.
Qed.

Lemma ipv6_table_untouched_when_disabled_witness :
  Forall (fun e => on_ipv6_table e = false)
         (snd (prepare_instance_filter Examples.ipv6_off
                 (Examples.policy [Examples.tcp80_from_v6]
                    [Examples.provider_echo_v6])
                 Examples.inst1 Examples.topology Examples.fresh)).
Proof.
  exact (proj1 (ipv6_table_untouched_when_disabled Examples.ipv6_off
                  (Examples.policy [Examples.tcp80_from_v6]
                     [Examples.provider_echo_v6])
                  Examples.inst1 Examples.topology
                  {| security_group_id := 1 |} Examples.fresh eq_refl)).
Defined.
